(** * logdog: the screen state machine of [internal/tui]

    A shallow embedding of the bubbletea model of logdog (the version with
    global-project browsing and retention settings): the [Model] struct, the
    [Update] transition function with its helpers, the log formatter, the
    views and the language detection of [internal/detector].

    Conventions.
    - Go's [int] is modelled by [Z].  Every increment and decrement in the
      code is guarded by a comparison with a list length, with [0], [1] or
      [365], so no 64-bit wrap-around can occur and none is written out.
    - A slice index [l[i]] panics when [i] is out of range; the embedding
      returns [None] there, so [Update] is a partial function.
    - The operating system is an explicit [World] value threaded through the
      transitions: the clock, the file tree, the current user's home and
      the working directory.
    - Library calls whose code is not part of the repository
      ([json.Unmarshal], lipgloss' [Render]) are section variables. *)

From Stdlib Require Import ZArith List String Ascii Bool Lia.
From Stdlib Require Import DecimalString.
Import ListNotations.

Set Warnings "-register-all".

Open Scope list_scope.
Open Scope string_scope.
Open Scope Z_scope.

(** ** Strings and slices *)

Definition len {A : Type} (l : list A) : Z := Z.of_nat (List.length l).

(** [l[i]]: [None] stands for the run-time panic on an index out of range. *)
Definition index {A : Type} (l : list A) (i : Z) : option A :=
  if (0 <=? i) && (i <? len l) then nth_error l (Z.to_nat i) else None.

(** [fmt.Sprintf("%d", n)]. *)
Definition itoa (n : Z) : string := NilZero.string_of_int (Z.to_int n).

(** [strings.Join]. *)
Definition strings_Join (l : list string) (sep : string) : string :=
  String.concat sep l.

Definition chars (s : string) : list ascii := list_ascii_of_string s.
Definition str (l : list ascii) : string := string_of_list_ascii l.

Definition slash : ascii := "/"%char.
Definition dot : ascii := "."%char.

(** The white space that [strings.TrimSpace] removes from ASCII text:
    tab, line feed, vertical tab, form feed, carriage return and space. *)
Definition isSpace (c : ascii) : bool :=
  let n := nat_of_ascii c in
  (Nat.eqb n 9 || Nat.eqb n 10 || Nat.eqb n 11 || Nat.eqb n 12
   || Nat.eqb n 13 || Nat.eqb n 32)%bool.

Fixpoint dropWhile {A : Type} (p : A -> bool) (l : list A) : list A :=
  match l with
  | [] => []
  | x :: t => if p x then dropWhile p t else l
  end.

Definition strings_TrimSpace (s : string) : string :=
  str (rev (dropWhile isSpace (rev (dropWhile isSpace (chars s))))).

(** [filepath.Base]: trailing separators are dropped, then the text after
    the last separator is kept; the empty path gives ".". *)
Fixpoint takeWhile {A : Type} (p : A -> bool) (l : list A) : list A :=
  match l with
  | [] => []
  | x :: t => if p x then x :: takeWhile p t else []
  end.

Definition isSlash (c : ascii) : bool := Ascii.eqb c slash.

Definition filepath_Base (path : string) : string :=
  match chars path with
  | [] => "."
  | cs =>
      match dropWhile isSlash (rev cs) with
      | [] => "/"
      | r => str (rev (takeWhile (fun c => negb (isSlash c)) r))
      end
  end.

(** [filepath.Ext]: the suffix that starts at the last dot of the last
    path element, empty when that element has no dot. *)
Fixpoint extRev (r acc : list ascii) : list ascii :=
  match r with
  | [] => []
  | c :: t =>
      if isSlash c then []
      else if Ascii.eqb c dot then c :: acc
      else extRev t (c :: acc)
  end.

Definition filepath_Ext (path : string) : string :=
  str (extRev (rev (chars path)) []).

(** [filepath.Join]: empty elements are ignored, the rest are joined by the
    separator.  (The final [Clean] of the library is not modelled; the
    elements joined here are a home directory, a literal and a directory
    entry name.) *)
Definition filepath_Join (elems : list string) : string :=
  String.concat "/" (filter (fun e => negb (String.eqb e "")) elems).

(** ** The operating system *)

(** Go's [error], kept as the text that [%v] prints. *)
Definition error : Type := string.

(** What [os.Stat] reports, as far as the code reads it. *)
Record FileInfo : Type := mkFileInfo {
  ModTime : Z;      (* nanoseconds since the epoch *)
  IsDir : bool
}.

(** A node of the file tree.  [content] is the sequence of tokens that a
    [bufio.Scanner] yields for the file (its lines, without terminators).
    [readable] and [removable] stand for the permissions that decide
    whether [os.Open] and [os.Remove] succeed. *)
Record Node : Type := mkNode {
  info : FileInfo;
  content : list string;
  readable : bool;
  removable : bool
}.

(** The file tree: absolute paths with their nodes, in directory-read
    order. *)
Definition FS : Type := list (string * Node).

Fixpoint lookupPath (fs : FS) (p : string) : option Node :=
  match fs with
  | [] => None
  | (q, n) :: t => if String.eqb q p then Some n else lookupPath t p
  end.

Definition os_Stat (fs : FS) (p : string) : option FileInfo :=
  option_map info (lookupPath fs p).

(** [p] lies strictly below directory [d]. *)
Definition below (d p : string) : bool := String.prefix (d ++ "/") p.

Definition os_Remove (fs : FS) (p : string) : option error * FS :=
  match lookupPath fs p with
  | None => (Some ("remove " ++ p ++ ": no such file or directory"), fs)
  | Some n =>
      if negb (removable n) then
        (Some ("remove " ++ p ++ ": permission denied"), fs)
      else if IsDir (info n) && existsb (fun e => below p (fst e)) fs then
        (Some ("remove " ++ p ++ ": directory not empty"), fs)
      else
        (None, filter (fun e => negb (String.eqb (fst e) p)) fs)
  end.

(** [os.Open] followed by scanning: the tokens of the file, or the error of
    the open.  Reading a directory yields no token. *)
Definition os_Open (fs : FS) (p : string) : error + list string :=
  match lookupPath fs p with
  | None => inl ("open " ++ p ++ ": no such file or directory")
  | Some n =>
      if negb (readable n) then inl ("open " ++ p ++ ": permission denied")
      else inr (if IsDir (info n) then [] else content n)
  end.

(** [os.ReadDir]: the names of the entries directly inside [d], with their
    nodes; an error when [d] is not a directory of the tree. *)
Definition parentOf (p : string) : string :=
  str (rev (match dropWhile (fun c => negb (isSlash c)) (rev (chars p)) with
            | [] => []
            | _ :: r => r
            end)).

Definition os_ReadDir (fs : FS) (d : string) : option (list (string * Node)) :=
  match lookupPath fs d with
  | Some n =>
      if IsDir (info n) then
        Some (map (fun e => (filepath_Base (fst e), snd e))
                  (filter (fun e => String.eqb (parentOf (fst e)) d) fs))
      else None
  | None => None
  end.

Record World : Type := mkWorld {
  now : Z;                    (* [time.Now()], nanoseconds since the epoch *)
  disk : FS;
  homeDir : option string;    (* [user.Current()], [None] when it fails *)
  wd : string                 (* [os.Getwd()] *)
}.

Definition setFS (w : World) (f : FS) : World :=
  mkWorld (now w) f (homeDir w) (wd w).

Definition setNow (w : World) (t : Z) : World :=
  mkWorld t (disk w) (homeDir w) (wd w).

(** One day in nanoseconds.  [Time.AddDate(0, 0, -d)] moves the wall clock
    back by [d] calendar days; the process's zone is taken to have no
    clock changes, so that is [d] times 24 hours. *)
Definition day : Z := 86400 * 1000000000.

Definition AddDate_days (t : Z) (d : Z) : Z := t + d * day.

(** ** Package detector *)

Record Config : Type := mkConfig {
  LogLevel : string;
  OutputDir : string;
  MaxFiles : Z;
  DateFormat : string
}.

(** The [Language] interface.  Its methods run against the world;
    [Install] may change it. *)
Record Language : Type := mkLanguage {
  Name : string;
  Detect : string -> World -> bool;
  Install : string -> Config -> World -> option error * World;
  GetLogPaths : string -> World -> list string
}.

Fixpoint DetectLanguage (SupportedLanguages : list Language)
    (projectPath : string) (w : World) : option Language :=
  match SupportedLanguages with
  | [] => None
  | lang :: rest =>
      if Detect lang projectPath w then Some lang
      else DetectLanguage rest projectPath w
  end.

(** ** Decoded JSON and its printing *)

(** The values that [json.Unmarshal] stores in an [any].  A number is a
    [float64]; the model keeps the integral ones (exact below 2^53).  An
    object is a Go map: it is kept as the list of its key/value pairs in
    the order in which a [range] over the map happens to visit them. *)
Inductive any : Type :=
| JNull
| JBool (b : bool)
| JNum (n : Z)
| JStr (s : string)
| JArr (l : list any)
| JObj (kv : list (string * any)).

Definition object : Type := list (string * any).

(** [m[k]] on a map: the value and whether the key is present. *)
Fixpoint mapGet (m : object) (k : string) : option any :=
  match m with
  | [] => None
  | (k', v) :: t => if String.eqb k' k then Some v else mapGet t k
  end.

(** [v, _ := m[k].(string)]: the zero value when the key is missing or the
    value has another dynamic type. *)
Definition asString (v : option any) : string :=
  match v with
  | Some (JStr s) => s
  | _ => ""
  end.

(** [v, _ := m[k].(map[string]any)]: the nil map otherwise. *)
Definition asObject (v : option any) : object :=
  match v with
  | Some (JObj kv) => kv
  | _ => []
  end.

(** [fmt.Sprintf("%v", v)] on a decoded value.  (Integral floats print in
    plain decimal below 1e21; compound values print in Go's bracketed
    form, a nested map in the order of its pair list.) *)
Fixpoint fmt_v (v : any) : string :=
  match v with
  | JNull => "<nil>"
  | JBool true => "true"
  | JBool false => "false"
  | JNum n => itoa n
  | JStr s => s
  | JArr l => "[" ++ String.concat " " (map fmt_v l) ++ "]"
  | JObj kv =>
      "map[" ++
      String.concat " "
        (map (fun p => match p with (k, x) => k ++ ":" ++ fmt_v x end) kv)
      ++ "]"
  end.

(** ** Timestamps *)

(** The wall-clock fields of a parsed [time.Time] that the layout
    ["Jan 02 15:04:05"] prints. *)
Record Time : Type := mkTime {
  t_month : Z; t_day : Z; t_hour : Z; t_minute : Z; t_second : Z
}.

Definition digit (c : ascii) : option Z :=
  let n := Z.of_nat (nat_of_ascii c) in
  if (48 <=? n) && (n <=? 57) then Some (n - 48) else None.

Definition isDigit (c : ascii) : bool :=
  match digit c with Some _ => true | None => false end.

Definition num2 (a b : ascii) : option Z :=
  match digit a, digit b with
  | Some x, Some y => Some (10 * x + y)
  | _, _ => None
  end.

Definition num4 (a b c d : ascii) : option Z :=
  match num2 a b, num2 c d with
  | Some x, Some y => Some (100 * x + y)
  | _, _ => None
  end.

Definition isLeap (y : Z) : bool :=
  (y mod 4 =? 0) && (negb (y mod 100 =? 0) || (y mod 400 =? 0)).

Definition daysIn (y m : Z) : Z :=
  if m =? 2 then (if isLeap y then 29 else 28)
  else if (m =? 4) || (m =? 6) || (m =? 9) || (m =? 11) then 30
  else 31.

(** The zone suffix of RFC 3339: [Z], or a sign and [hh:mm]. *)
Definition isZone (l : list ascii) : bool :=
  match l with
  | [z] => Ascii.eqb z "Z"
  | [s; h1; h2; c; m1; m2] =>
      (Ascii.eqb s "+" || Ascii.eqb s "-") && Ascii.eqb c ":" &&
      match num2 h1 h2, num2 m1 m2 with
      | Some h, Some m => (h <? 24) && (m <? 60)
      | _, _ => false
      end
  | _ => false
  end.

(** An optional fraction of a second, then the zone. *)
Definition isFracZone (l : list ascii) : bool :=
  match l with
  | p :: d :: r =>
      if (Ascii.eqb p "." || Ascii.eqb p ",") && isDigit d
      then isZone (dropWhile isDigit r)
      else isZone l
  | _ => isZone l
  end.

(** [time.Parse(time.RFC3339, s)]: [None] is the parse error.  The fields
    kept are those of the wall clock written in [s], which is what the
    parsed time prints in its own zone. *)
Definition time_Parse_RFC3339 (s : string) : option Time :=
  match chars s with
  | y1 :: y2 :: y3 :: y4 :: c1 :: m1 :: m2 :: c2 :: d1 :: d2 :: t ::
    h1 :: h2 :: c3 :: n1 :: n2 :: c4 :: s1 :: s2 :: rest =>
      match num4 y1 y2 y3 y4, num2 m1 m2, num2 d1 d2,
            num2 h1 h2, num2 n1 n2, num2 s1 s2 with
      | Some y, Some mo, Some d, Some h, Some mi, Some se =>
          if Ascii.eqb c1 "-" && Ascii.eqb c2 "-" && Ascii.eqb t "T"
             && Ascii.eqb c3 ":" && Ascii.eqb c4 ":"
             && (1 <=? mo) && (mo <=? 12) && (1 <=? d) && (d <=? daysIn y mo)
             && (h <? 24) && (mi <? 60) && (se <? 60)
             && isFracZone rest
          then Some (mkTime mo d h mi se)
          else None
      | _, _, _, _, _, _ => None
      end
  | _ => None
  end.

Definition monthAbbr (m : Z) : string :=
  nth (Z.to_nat (m - 1))
      ["Jan"; "Feb"; "Mar"; "Apr"; "May"; "Jun";
       "Jul"; "Aug"; "Sep"; "Oct"; "Nov"; "Dec"] "".

Definition pad2 (n : Z) : string :=
  if n <? 10 then "0" ++ itoa n else itoa n.

(** [t.Format("Jan 02 15:04:05")]. *)
Definition Format_Jan02 (t : Time) : string :=
  monthAbbr (t_month t) ++ " " ++ pad2 (t_day t) ++ " " ++
  pad2 (t_hour t) ++ ":" ++ pad2 (t_minute t) ++ ":" ++ pad2 (t_second t).

(** ** The model *)

Inductive screen : Type :=
| screenMain
| screenInstall
| screenLogs
| screenLogView
| screenSettings
| screenGlobalProjects.

Definition screen_eqb (a b : screen) : bool :=
  match a, b with
  | screenMain, screenMain
  | screenInstall, screenInstall
  | screenLogs, screenLogs
  | screenLogView, screenLogView
  | screenSettings, screenSettings
  | screenGlobalProjects, screenGlobalProjects => true
  | _, _ => false
  end.

(** The [Model] struct.  The field [screen] is called [mscreen] here, the
    name [screen] being taken by its type. *)
Record Model : Type := mkModel {
  mscreen : screen;
  projectPath : string;
  language : option Language;
  config : Config;
  logFiles : list string;
  cursor : Z;
  message : string;
  confirmingDelete : bool;
  confirmingClear : bool;
  deleteFileIndex : Z;
  logContent : string;
  globalProjects : list string;
  selectedProject : string;
  retentionDays : Z
}.

(** Field assignments [m.f = v]. *)
Definition set_screen (m : Model) (v : screen) : Model :=
  mkModel v (projectPath m) (language m) (config m) (logFiles m) (cursor m)
    (message m) (confirmingDelete m) (confirmingClear m) (deleteFileIndex m)
    (logContent m) (globalProjects m) (selectedProject m) (retentionDays m).

Definition set_logFiles (m : Model) (v : list string) : Model :=
  mkModel (mscreen m) (projectPath m) (language m) (config m) v (cursor m)
    (message m) (confirmingDelete m) (confirmingClear m) (deleteFileIndex m)
    (logContent m) (globalProjects m) (selectedProject m) (retentionDays m).

Definition set_cursor (m : Model) (v : Z) : Model :=
  mkModel (mscreen m) (projectPath m) (language m) (config m) (logFiles m) v
    (message m) (confirmingDelete m) (confirmingClear m) (deleteFileIndex m)
    (logContent m) (globalProjects m) (selectedProject m) (retentionDays m).

Definition set_message (m : Model) (v : string) : Model :=
  mkModel (mscreen m) (projectPath m) (language m) (config m) (logFiles m)
    (cursor m) v (confirmingDelete m) (confirmingClear m) (deleteFileIndex m)
    (logContent m) (globalProjects m) (selectedProject m) (retentionDays m).

Definition set_confirmingDelete (m : Model) (v : bool) : Model :=
  mkModel (mscreen m) (projectPath m) (language m) (config m) (logFiles m)
    (cursor m) (message m) v (confirmingClear m) (deleteFileIndex m)
    (logContent m) (globalProjects m) (selectedProject m) (retentionDays m).

Definition set_confirmingClear (m : Model) (v : bool) : Model :=
  mkModel (mscreen m) (projectPath m) (language m) (config m) (logFiles m)
    (cursor m) (message m) (confirmingDelete m) v (deleteFileIndex m)
    (logContent m) (globalProjects m) (selectedProject m) (retentionDays m).

Definition set_deleteFileIndex (m : Model) (v : Z) : Model :=
  mkModel (mscreen m) (projectPath m) (language m) (config m) (logFiles m)
    (cursor m) (message m) (confirmingDelete m) (confirmingClear m) v
    (logContent m) (globalProjects m) (selectedProject m) (retentionDays m).

Definition set_logContent (m : Model) (v : string) : Model :=
  mkModel (mscreen m) (projectPath m) (language m) (config m) (logFiles m)
    (cursor m) (message m) (confirmingDelete m) (confirmingClear m)
    (deleteFileIndex m) v (globalProjects m) (selectedProject m)
    (retentionDays m).

Definition set_selectedProject (m : Model) (v : string) : Model :=
  mkModel (mscreen m) (projectPath m) (language m) (config m) (logFiles m)
    (cursor m) (message m) (confirmingDelete m) (confirmingClear m)
    (deleteFileIndex m) (logContent m) (globalProjects m) v (retentionDays m).

Definition set_retentionDays (m : Model) (v : Z) : Model :=
  mkModel (mscreen m) (projectPath m) (language m) (config m) (logFiles m)
    (cursor m) (message m) (confirmingDelete m) (confirmingClear m)
    (deleteFileIndex m) (logContent m) (globalProjects m) (selectedProject m)
    v.

(** The commands a transition hands back to the bubbletea runtime. *)
Inductive Cmd : Type := CmdNil | Quit | ClearScreen.

(** A [tea.Msg]: a key press, named by [msg.String()], or any other
    message. *)
Inductive Msg : Type :=
| KeyMsg (key : string)
| OtherMsg.

(** The outcome of a method returning [(Model, tea.Cmd)]: the new model,
    the command and the world it leaves; [None] when it panics. *)
Definition Outcome : Type := option (Model * Cmd * World).

Definition ret (m : Model) (c : Cmd) (w : World) : Outcome := Some (m, c, w).

Definition nl : string := String (ascii_of_nat 10) "".

Definition scanGlobalProjects (w : World) : list string :=
  match homeDir w with
  | None => []
  | Some home =>
      let logdogDir := filepath_Join [home; "logdog"] in
      match os_ReadDir (disk w) logdogDir with
      | None => []
      | Some entries =>
          map fst (filter (fun e => IsDir (info (snd e))) entries)
      end
  end.

Definition NewModel (SupportedLanguages : list Language) (w : World) : Model :=
  let lang := DetectLanguage SupportedLanguages (wd w) w in
  let files :=
    match lang with
    | Some l => GetLogPaths l (wd w) w
    | None => []
    end in
  mkModel screenMain (wd w) lang
    (mkConfig "INFO" "logdog/logs" 30 "2006-01-02")
    files 0 "" false false 0 "" (scanGlobalProjects w) "" 7.

(** The files a retention of [retentionDays] makes old at this moment:
    the loop of [handleClearOldLogs]. *)
Definition isOld (w : World) (cutoffDate : Z) (logFile : string) : bool :=
  match os_Stat (disk w) logFile with
  | Some i => ModTime i <? cutoffDate
  | None => false
  end.

Definition oldLogs (m : Model) (w : World) : list string :=
  let cutoffDate := AddDate_days (now w) (- retentionDays m) in
  filter (isOld w cutoffDate) (logFiles m).

Definition handleClearOldLogs (m : Model) (w : World) : Outcome :=
  let old := oldLogs m w in
  if len old =? 0 then
    ret (set_message m
           ("No log files older than " ++ itoa (retentionDays m)
            ++ " days found"))
        CmdNil w
  else
    let m := set_message m
               ("Clear " ++ itoa (len old) ++ " log files older than "
                ++ itoa (retentionDays m)
                ++ " days? Press 'y' to confirm, any other key to cancel") in
    let m := set_confirmingClear m true in
    ret m CmdNil w.

(** One round of the deleting loop of [confirmClearOldLogs]: the file tree,
    the count of deleted files and the collected errors. *)
Definition clearStep (cutoffDate : Z) (st : FS * Z * list string)
    (logFile : string) : FS * Z * list string :=
  let '(f, deletedCount, errors) := st in
  match os_Stat f logFile with
  | Some i =>
      if ModTime i <? cutoffDate then
        match os_Remove f logFile with
        | (Some err, f') =>
            (f', deletedCount,
             app errors ["Failed to delete " ++ filepath_Base logFile
                         ++ ": " ++ err])
        | (None, f') => (f', deletedCount + 1, errors)
        end
      else st
  | None => st
  end.

(** The refresh both confirmations share:
    [if m.language != nil { m.logFiles = m.language.GetLogPaths(...) }]. *)
Definition refreshLogFiles (m : Model) (w : World) : Model :=
  match language m with
  | Some l => set_logFiles m (GetLogPaths l (projectPath m) w)
  | None => m
  end.

Definition confirmClearOldLogs (m : Model) (w : World) : Outcome :=
  let cutoffDate := AddDate_days (now w) (- retentionDays m) in
  let '(f, deletedCount, errors) :=
    fold_left (clearStep cutoffDate) (logFiles m) (disk w, 0, []) in
  let w := setFS w f in
  let m := refreshLogFiles m w in
  let m :=
    if (cursor m >=? len (logFiles m)) && (len (logFiles m) >? 0) then
      set_cursor m (len (logFiles m) - 1)
    else if len (logFiles m) =? 0 then set_cursor m 0
    else m in
  let m :=
    if len errors >? 0 then
      set_message m
        ("✅ Deleted " ++ itoa deletedCount ++ " files. ❌ Errors: "
         ++ strings_Join errors "; ")
    else
      set_message m ("✅ Cleared " ++ itoa deletedCount ++ " old log files") in
  let m := set_confirmingClear m false in
  ret m CmdNil w.

Definition handleDeleteLog (m : Model) (w : World) : Outcome :=
  if cursor m <? len (logFiles m) then
    match index (logFiles m) (cursor m) with
    | None => None
    | Some path =>
        let filename := filepath_Base path in
        let m := set_message m
                   ("Delete " ++ filename
                    ++ "? Press 'y' to confirm, any other key to cancel") in
        let m := set_confirmingDelete m true in
        let m := set_deleteFileIndex m (cursor m) in
        ret m CmdNil w
    end
  else ret m CmdNil w.

Definition confirmDelete (m : Model) (w : World) : Outcome :=
  if deleteFileIndex m <? len (logFiles m) then
    match index (logFiles m) (deleteFileIndex m) with
    | None => None
    | Some filePath =>
        match os_Remove (disk w) filePath with
        | (Some err, f) =>
            let w := setFS w f in
            let m := set_message m ("❌ Failed to delete: " ++ err) in
            ret (set_confirmingDelete m false) CmdNil w
        | (None, f) =>
            let w := setFS w f in
            let filename := filepath_Base filePath in
            let m := set_message m ("✅ Deleted " ++ filename) in
            let m := refreshLogFiles m w in
            let m :=
              if (cursor m >=? len (logFiles m)) && (len (logFiles m) >? 0)
              then set_cursor m (len (logFiles m) - 1)
              else m in
            ret (set_confirmingDelete m false) CmdNil w
        end
    end
  else ret (set_confirmingDelete m false) CmdNil w.

(** [filepath.Walk] from the project's directory under the global root,
    keeping the regular files whose extension is [.json]. *)
Definition getLogFilesForProject (projectName : string) (w : World)
    : list string :=
  match homeDir w with
  | None => []
  | Some home =>
      let logsDir := filepath_Join [home; "logdog"; projectName] in
      map fst
        (filter
           (fun e =>
              (String.eqb (fst e) logsDir || below logsDir (fst e))
              && negb (IsDir (info (snd e)))
              && String.eqb (filepath_Ext (fst e)) ".json")
           (disk w))
  end.

Definition handleEnter (m : Model) (w : World) : Outcome :=
  match mscreen m with
  | screenMain =>
      if cursor m =? 4 then ret m Quit w
      else
        let m :=
          if cursor m =? 0 then set_screen m screenInstall
          else if cursor m =? 1 then set_screen m screenLogs
          else if cursor m =? 2 then set_screen m screenGlobalProjects
          else if cursor m =? 3 then set_screen m screenSettings
          else m in
        let m := set_cursor m 0 in
        let m := set_message m "" in
        ret m CmdNil w
  | screenGlobalProjects =>
      if cursor m <? len (globalProjects m) then
        match index (globalProjects m) (cursor m) with
        | None => None
        | Some name =>
            let m := set_selectedProject m name in
            let m := set_logFiles m (getLogFilesForProject name w) in
            let m := set_screen m screenLogs in
            let m := set_cursor m 0 in
            let m := set_message m "" in
            ret m CmdNil w
        end
      else ret m CmdNil w
  | _ => ret m CmdNil w
  end.

Definition getMaxCursor (m : Model) : Z :=
  match mscreen m with
  | screenMain => 4
  | screenLogs => len (logFiles m) - 1
  | screenGlobalProjects => len (globalProjects m) - 1
  | _ => 0
  end.

(** A lipgloss style, as far as the code sets it. *)
Record Style : Type := mkStyle {
  Foreground : option string;
  Background : option string;
  Bold : bool
}.

Definition fg (c : string) : Style := mkStyle (Some c) None false.
Definition fgBold (c : string) : Style := mkStyle (Some c) None true.

(** ** Formatting, viewing and the transition function *)

Section Tui.

(** [json.Unmarshal([]byte(line), &logEntry)] with [logEntry] a nil
    [map[string]any]: the decoded object, or [None] for its error. *)
Variable json_Unmarshal : string -> option object.

(** [style.Render(text)] of lipgloss. *)
Variable Render : Style -> string -> string.

Definition levelColor (level : string) : string :=
  if String.eqb level "ERROR" then "196"
  else if String.eqb level "WARN" then "208"
  else if String.eqb level "INFO" then "46"
  else if String.eqb level "DEBUG" then "240"
  else "252".

Definition formatLogEntry (entry : object) : string :=
  let timestamp := asString (mapGet entry "timestamp") in
  let level := asString (mapGet entry "level") in
  let message := asString (mapGet entry "message") in
  let data := asObject (mapGet entry "data") in
  let result := "" in
  let result :=
    if negb (String.eqb timestamp "") then
      (result ++
       match time_Parse_RFC3339 timestamp with
       | Some t => Render (fg "240") (Format_Jan02 t)
       | None => Render (fg "240") timestamp
       end) ++ " "
    else result in
  let result :=
    if negb (String.eqb level "") then
      (result ++ Render (fgBold (levelColor level)) ("[" ++ level ++ "]"))
      ++ " "
    else result in
  let result :=
    if negb (String.eqb message "") then
      result ++ Render (fg "252") message
    else result in
  let result :=
    if len data >? 0 then
      let pairs :=
        map (fun p => match p with (k, v) => k ++ "=" ++ fmt_v v end) data in
      (result ++ " ")
      ++ Render (fg "99") ("{" ++ strings_Join pairs ", " ++ "}")
    else result in
  result.

(** What one round of the scanning loop of [viewLogContent] writes. *)
Definition formatLine (text : string) : string :=
  let line := strings_TrimSpace text in
  if String.eqb line "" then ""
  else
    match json_Unmarshal line with
    | Some logEntry => formatLogEntry logEntry ++ nl
    | None => line ++ nl
    end.

Definition viewLogContent (m : Model) (w : World) : Outcome :=
  match index (logFiles m) (cursor m) with
  | None => None
  | Some filePath =>
      match os_Open (disk w) filePath with
      | inl err =>
          ret (set_message m ("❌ Error reading log: " ++ err)) CmdNil w
      | inr lines =>
          let formattedLogs :=
            fold_left (fun acc text => acc ++ formatLine text) lines "" in
          let m := set_screen m screenLogView in
          let m := set_logContent m formattedLogs in
          let m := set_cursor m 0 in
          ret m CmdNil w
      end
  end.

Definition handleViewLog (m : Model) (w : World) : Outcome :=
  if cursor m <? len (logFiles m) then viewLogContent m w
  else ret m CmdNil w.

Definition isKey (k : string) (names : list string) : bool :=
  existsb (String.eqb k) names.

Definition confirming (m : Model) : bool :=
  confirmingDelete m || confirmingClear m.

Definition Update (msg : Msg) (m : Model) (w : World) : Outcome :=
  match msg with
  | OtherMsg => ret m CmdNil w
  | KeyMsg k =>
      if isKey k ["q"; "ctrl+c"] then ret m Quit w
      else if isKey k ["up"; "k"] then
        if negb (confirmingDelete m) && negb (confirmingClear m) then
          let m := if cursor m >? 0 then set_cursor m (cursor m - 1) else m in
          ret (set_message m "") CmdNil w
        else ret m CmdNil w
      else if isKey k ["down"; "j"] then
        if negb (confirmingDelete m) && negb (confirmingClear m) then
          let m :=
            if cursor m <? getMaxCursor m then set_cursor m (cursor m + 1)
            else m in
          ret (set_message m "") CmdNil w
        else ret m CmdNil w
      else if isKey k ["enter"] then
        if negb (confirmingDelete m) && negb (confirmingClear m) then
          if screen_eqb (mscreen m) screenInstall then
            let '(m, w) :=
              match language m with
              | Some l =>
                  match Install l (projectPath m) (config m) w with
                  | (Some err, w') => (set_message m ("❌ Error: " ++ err), w')
                  | (None, w') =>
                      let m := set_message m
                        "✅ Logger installed successfully! Check internal/logdog/logger.go" in
                      (set_logFiles m (GetLogPaths l (projectPath m) w'), w')
                  end
              | None => (set_message m "❌ No supported language detected", w)
              end in
            let m := set_screen m screenMain in
            let m := set_cursor m 0 in
            ret m ClearScreen w
          else handleEnter m w
        else ret m CmdNil w
      else if isKey k ["v"] then
        if screen_eqb (mscreen m) screenLogs && (len (logFiles m) >? 0)
           && negb (confirmingDelete m) && negb (confirmingClear m)
        then handleViewLog m w
        else ret m CmdNil w
      else if isKey k ["d"] then
        if screen_eqb (mscreen m) screenLogs && (len (logFiles m) >? 0)
           && negb (confirmingDelete m) && negb (confirmingClear m)
        then handleDeleteLog m w
        else ret m CmdNil w
      else if isKey k ["c"] then
        if screen_eqb (mscreen m) screenLogs && (len (logFiles m) >? 0)
           && negb (confirmingDelete m) && negb (confirmingClear m)
        then handleClearOldLogs m w
        else ret m CmdNil w
      else if isKey k ["y"] then
        if confirmingDelete m then confirmDelete m w
        else if confirmingClear m then confirmClearOldLogs m w
        else ret m CmdNil w
      else if isKey k ["+"; "="] then
        if screen_eqb (mscreen m) screenSettings
           && negb (confirmingDelete m) && negb (confirmingClear m)
        then
          if retentionDays m <? 365 then
            let m := set_retentionDays m (retentionDays m + 1) in
            ret (set_message m
                   ("Retention set to " ++ itoa (retentionDays m) ++ " days"))
                CmdNil w
          else ret m CmdNil w
        else ret m CmdNil w
      else if isKey k ["-"; "_"] then
        if screen_eqb (mscreen m) screenSettings
           && negb (confirmingDelete m) && negb (confirmingClear m)
        then
          if retentionDays m >? 1 then
            let m := set_retentionDays m (retentionDays m - 1) in
            ret (set_message m
                   ("Retention set to " ++ itoa (retentionDays m) ++ " days"))
                CmdNil w
          else ret m CmdNil w
        else ret m CmdNil w
      else if isKey k ["esc"] then
        if confirmingDelete m || confirmingClear m then
          let m := set_confirmingDelete m false in
          let m := set_confirmingClear m false in
          ret (set_message m "") CmdNil w
        else
          let m := set_screen m screenMain in
          let m := set_cursor m 0 in
          let m := set_message m "" in
          let m := set_confirmingDelete m false in
          let m := set_confirmingClear m false in
          let m := set_logContent m "" in
          ret (set_selectedProject m "") CmdNil w
      else
        if confirmingDelete m || confirmingClear m then
          let m := set_confirmingDelete m false in
          let m := set_confirmingClear m false in
          ret (set_message m "") CmdNil w
        else ret (set_message m "") CmdNil w
  end.

(** The file name in the header of the log view. *)
Definition logViewFilename (m : Model) : option string :=
  if deleteFileIndex m <? len (logFiles m) then
    option_map filepath_Base (index (logFiles m) (deleteFileIndex m))
  else Some "".

(** [renderLogView]; [None] when the slice index panics. *)
Definition renderLogView (m : Model) : option string :=
  match logViewFilename m with
  | None => None
  | Some filename =>
      let header := Render (fgBold "99") ("📋 Viewing: " ++ filename) in
      let instructions := Render (fg "240") "Press ESC to go back" in
      let content := Render (fg "252") (logContent m) in
      Some (header ++ nl ++ nl ++ content ++ nl ++ nl ++ instructions)
  end.

(** ** Runs *)

(** The event loop: from the model built at start-up, each event is a
    message handed to [Update]; between two events the clock may move.
    The quit command ends the loop; the model returned with it is the one
    the key found, so keeping it among the reachable states adds none. *)
Inductive reachable (langs : list Language) (w0 : World)
    : Model -> World -> Prop :=
| reach_init : reachable langs w0 (NewModel langs w0) w0
| reach_tick : forall m w t,
    reachable langs w0 m w -> reachable langs w0 m (setNow w t)
| reach_step : forall m w msg m' c w',
    reachable langs w0 m w ->
    Update msg m w = Some (m', c, w') ->
    reachable langs w0 m' w'.

(** Running a list of messages; a panic stops the run with [None], the quit
    command stops it with the state it returns. *)
Fixpoint run (msgs : list Msg) (m : Model) (w : World) : option (Model * World) :=
  match msgs with
  | [] => Some (m, w)
  | msg :: rest =>
      match Update msg m w with
      | None => None
      | Some (m', Quit, w') => Some (m', w')
      | Some (m', _, w') => run rest m' w'
      end
  end.

End Tui.

(** ** Instances of the library functions and of the detector *)

(** A terminal without colours: lipgloss renders the text as it is. *)
Definition plainRender (st : Style) (text : string) : string := text.

(** A 256-colour terminal: the text of a one-line string between the
    escape sequence of the style and the reset sequence. *)
Definition esc : string := String (ascii_of_nat 27) "[".

Definition ansiRender (st : Style) (text : string) : string :=
  let b := if Bold st then ["1"] else [] in
  let f := match Foreground st with Some c => ["38;5;" ++ c] | None => [] end in
  let g := match Background st with Some c => ["48;5;" ++ c] | None => [] end in
  esc ++ strings_Join (b ++ f ++ g)%list ";" ++ "m" ++ text ++ esc ++ "0m".

(** A decoder for the fragment of JSON that the examples use: objects,
    arrays, strings with the one-letter escapes, integers, [true], [false]
    and [null].  (Fractions, exponents and [\u] escapes, which
    [encoding/json] accepts, are outside the fragment and rejected.) *)
Definition dquote : ascii := ascii_of_nat 34.

Definition isJsonWs (c : ascii) : bool :=
  let n := nat_of_ascii c in
  (Nat.eqb n 32 || Nat.eqb n 9 || Nat.eqb n 10 || Nat.eqb n 13)%bool.

Definition skipWs (l : list ascii) : list ascii := dropWhile isJsonWs l.

Definition unescape (c : ascii) : option ascii :=
  if Ascii.eqb c dquote then Some c
  else if Ascii.eqb c "\" then Some c
  else if Ascii.eqb c "/" then Some c
  else if Ascii.eqb c "n" then Some (ascii_of_nat 10)
  else if Ascii.eqb c "t" then Some (ascii_of_nat 9)
  else if Ascii.eqb c "r" then Some (ascii_of_nat 13)
  else if Ascii.eqb c "b" then Some (ascii_of_nat 8)
  else if Ascii.eqb c "f" then Some (ascii_of_nat 12)
  else None.

Fixpoint parseString (l acc : list ascii) : option (string * list ascii) :=
  match l with
  | [] => None
  | c :: t =>
      if Ascii.eqb c dquote then Some (str (rev acc), t)
      else if Ascii.eqb c "\" then
        match t with
        | e :: t' =>
            match unescape e with
            | Some x => parseString t' (x :: acc)
            | None => None
            end
        | [] => None
        end
      else if (nat_of_ascii c <? 32)%nat then None
      else parseString t (c :: acc)
  end.

Definition digitsValue (ds : list ascii) : Z :=
  fold_left (fun a c => 10 * a + match digit c with Some d => d | None => 0 end)
    ds 0.

Definition parseNumber (l : list ascii) : option (any * list ascii) :=
  let '(neg, l1) :=
    match l with
    | c :: t => if Ascii.eqb c "-" then (true, t) else (false, l)
    | [] => (false, l)
    end in
  let ds := takeWhile isDigit l1 in
  let rest := dropWhile isDigit l1 in
  let wellFormed :=
    match ds with
    | [] => false
    | z :: _ :: _ => negb (Ascii.eqb z "0")
    | _ => true
    end in
  let plain :=
    match rest with
    | c :: _ => negb (Ascii.eqb c "." || Ascii.eqb c "e" || Ascii.eqb c "E")
    | [] => true
    end in
  if wellFormed && plain
  then Some (JNum (if neg then - digitsValue ds else digitsValue ds), rest)
  else None.

Definition literal (word : string) (l : list ascii) : option (list ascii) :=
  let w := chars word in
  if String.eqb (str (firstn (List.length w) l)) word
  then Some (skipn (List.length w) l) else None.

Definition mapSet (m : object) (k : string) (v : any) : object :=
  if existsb (fun p => String.eqb (fst p) k) m
  then map (fun p => if String.eqb (fst p) k then (k, v) else p) m
  else app m [(k, v)].

Fixpoint parseValue (fuel : nat) (l : list ascii) : option (any * list ascii) :=
  match fuel with
  | O => None
  | S fuel' =>
      match skipWs l with
      | [] => None
      | c :: t =>
          if Ascii.eqb c "{" then
            match skipWs t with
            | c' :: t' =>
                if Ascii.eqb c' "}" then Some (JObj [], t')
                else parseMembers fuel' t []
            | [] => None
            end
          else if Ascii.eqb c "[" then
            match skipWs t with
            | c' :: t' =>
                if Ascii.eqb c' "]" then Some (JArr [], t')
                else parseElems fuel' t []
            | [] => None
            end
          else if Ascii.eqb c dquote then
            match parseString t [] with
            | Some (s, r) => Some (JStr s, r)
            | None => None
            end
          else if Ascii.eqb c "t" then
            option_map (fun r => (JBool true, r)) (literal "true" (c :: t))
          else if Ascii.eqb c "f" then
            option_map (fun r => (JBool false, r)) (literal "false" (c :: t))
          else if Ascii.eqb c "n" then
            option_map (fun r => (JNull, r)) (literal "null" (c :: t))
          else parseNumber (c :: t)
      end
  end
with parseMembers (fuel : nat) (l : list ascii) (acc : object)
    : option (any * list ascii) :=
  match fuel with
  | O => None
  | S fuel' =>
      match skipWs l with
      | q :: t =>
          if Ascii.eqb q dquote then
            match parseString t [] with
            | Some (k, r) =>
                match skipWs r with
                | c :: r' =>
                    if Ascii.eqb c ":" then
                      match parseValue fuel' r' with
                      | Some (v, r'') =>
                          match skipWs r'' with
                          | d :: r3 =>
                              if Ascii.eqb d "," then
                                parseMembers fuel' r3 (mapSet acc k v)
                              else if Ascii.eqb d "}" then
                                Some (JObj (mapSet acc k v), r3)
                              else None
                          | [] => None
                          end
                      | None => None
                      end
                    else None
                | [] => None
                end
            | None => None
            end
          else None
      | [] => None
      end
  end
with parseElems (fuel : nat) (l : list ascii) (acc : list any)
    : option (any * list ascii) :=
  match fuel with
  | O => None
  | S fuel' =>
      match parseValue fuel' l with
      | Some (v, r) =>
          match skipWs r with
          | d :: r' =>
              if Ascii.eqb d "," then parseElems fuel' r' (app acc [v])
              else if Ascii.eqb d "]" then Some (JArr (app acc [v]), r')
              else None
          | [] => None
          end
      | None => None
      end
  end.

(** Decoding into a nil [map[string]any]: an object fills the map, [null]
    leaves it nil without error, any other value is an error. *)
Definition jsonDecode (line : string) : option object :=
  let l := chars line in
  match parseValue (S (List.length l)) l with
  | Some (v, rest) =>
      match skipWs rest, v with
      | [], JObj kv => Some kv
      | [], JNull => Some []
      | _, _ => None
      end
  | None => None
  end.

(** The Go detector, the one entry of [SupportedLanguages].  Its methods
    are not among the sources; they are modelled from the specification and
    the README and serve the sample worlds below. *)
Definition joinPath (d name : string) : string := d ++ "/" ++ name.

Definition addNode (f : FS) (p : string) (n : Node) : FS :=
  match lookupPath f p with
  | Some _ => map (fun e => if String.eqb (fst e) p then (p, n) else e) f
  | None => app f [(p, n)]
  end.

Definition ensureDir (t : Z) (f : FS) (p : string) : FS :=
  match lookupPath f p with
  | Some _ => f
  | None => app f [(p, mkNode (mkFileInfo t true) [] true true)]
  end.

(** Modelled from the spec: [GoLanguage.Install], missing from the sources.
    It creates the package file [internal/logdog/logger.go], overwriting an
    existing one without asking, and the output directory; it fails with an
    I/O error when the package file cannot be written. *)
Definition goInstall (projectPath : string) (cfg : Config) (w : World)
    : option error * World :=
  let pkgDir := joinPath (joinPath projectPath "internal") "logdog" in
  let pkg := joinPath pkgDir "logger.go" in
  let writable :=
    match lookupPath (disk w) pkg with
    | Some n => removable n
    | None => true
    end in
  if writable then
    let f := ensureDir (now w) (disk w) (joinPath projectPath "internal") in
    let f := ensureDir (now w) f pkgDir in
    let f := addNode f pkg
               (mkNode (mkFileInfo (now w) false) ["package logdog"] true true) in
    let f := ensureDir (now w) f (joinPath projectPath "logdog") in
    let f := ensureDir (now w) f (joinPath projectPath (OutputDir cfg)) in
    (None, setFS w f)
  else (Some ("open " ++ pkg ++ ": permission denied"), w).

(** Modelled from the spec: [GoLanguage.GetLogPaths], missing from the
    sources.  It enumerates the log files of the project's output directory
    [logdog/logs], the [.json] files, in directory-read order. *)
Definition goGetLogPaths (projectPath : string) (w : World) : list string :=
  let dir := joinPath projectPath "logdog/logs" in
  map fst
    (filter
       (fun e =>
          String.eqb (parentOf (fst e)) dir
          && negb (IsDir (info (snd e)))
          && String.eqb (filepath_Ext (fst e)) ".json")
       (disk w)).

(** Modelled from the spec: [GoLanguage], missing from the sources.  A Go
    project is a directory that holds [go.mod]. *)
Definition GoLanguage : Language :=
  mkLanguage "Go"
    (fun projectPath w =>
       match lookupPath (disk w) (joinPath projectPath "go.mod") with
       | Some _ => true
       | None => false
       end)
    goInstall
    goGetLogPaths.

Definition SupportedLanguages : list Language := [GoLanguage].

(** ** Sample worlds *)

Definition dirNode (t : Z) : Node := mkNode (mkFileInfo t true) [] true true.

Definition fileNode (t : Z) (lines : list string) : Node :=
  mkNode (mkFileInfo t false) lines true true.

(** Noon of 2024-01-15 (UTC), in nanoseconds. *)
Definition noon : Z := 1705320000 * 1000000000.

(** A Go project without logs of its own, and one project with three log
    files under the global root of user [u]. *)
Definition shopWorld : World :=
  mkWorld noon
    [ ("/work", dirNode 0);
      ("/work/app", dirNode 0);
      ("/work/app/go.mod", fileNode 0 ["module app"]);
      ("/home", dirNode 0);
      ("/home/u", dirNode 0);
      ("/home/u/logdog", dirNode 0);
      ("/home/u/logdog/shop", dirNode 0);
      ("/home/u/logdog/shop/logdog-2024-01-12.json",
         fileNode (noon - 3 * day) ["not json"]);
      ("/home/u/logdog/shop/logdog-2024-01-13.json",
         fileNode (noon - 2 * day) []);
      ("/home/u/logdog/shop/logdog-2024-01-14.json",
         fileNode (noon - 1 * day) []) ]
    (Some "/home/u") "/work/app".

(** The same global root seen from a directory that is no Go project. *)
Definition plainWorld : World :=
  mkWorld noon
    [ ("/tmp", dirNode 0);
      ("/home", dirNode 0);
      ("/home/u", dirNode 0);
      ("/home/u/logdog", dirNode 0);
      ("/home/u/logdog/shop", dirNode 0);
      ("/home/u/logdog/shop/logdog-2024-01-06.json",
         fileNode (noon - 9 * day) []) ]
    (Some "/home/u") "/tmp".

(** A Go project with log files one, ten and thirty days old. *)
Definition agedWorld : World :=
  mkWorld noon
    [ ("/work", dirNode 0);
      ("/work/app", dirNode 0);
      ("/work/app/go.mod", fileNode 0 ["module app"]);
      ("/work/app/logdog", dirNode 0);
      ("/work/app/logdog/logs", dirNode 0);
      ("/work/app/logdog/logs/logdog-2024-01-14.json",
         fileNode (noon - 1 * day) ["not json"; "  "; "null"]);
      ("/work/app/logdog/logs/logdog-2024-01-05.json",
         fileNode (noon - 10 * day) []);
      ("/work/app/logdog/logs/logdog-2023-12-16.json",
         fileNode (noon - 30 * day) []) ]
    (Some "/home/u") "/work/app".

Definition keys (names : list string) : list Msg := map KeyMsg names.

(** The state of a sample run from start-up. *)
Definition after (names : list string) (w : World) : option (Model * World) :=
  run jsonDecode plainRender (keys names) (NewModel SupportedLanguages w) w.

(** ** The views *)

(** [utf8.RuneCountInString], the width [fmt] pads to: a well-formed
    sequence of one to four bytes is one rune, and so is every byte that
    starts none. *)
Definition byteOf (c : ascii) : Z := Z.of_nat (nat_of_ascii c).

Definition between (lo hi : Z) (c : ascii) : bool :=
  (lo <=? byteOf c) && (byteOf c <=? hi).

(** For a lead byte: the length of its sequence and the range its second
    byte must lie in. *)
Definition leadByte (c : ascii) : option (nat * Z * Z) :=
  if between 194 223 c then Some (2%nat, 128, 191)
  else if between 224 224 c then Some (3%nat, 160, 191)
  else if between 225 236 c then Some (3%nat, 128, 191)
  else if between 237 237 c then Some (3%nat, 128, 159)
  else if between 238 239 c then Some (3%nat, 128, 191)
  else if between 240 240 c then Some (4%nat, 144, 191)
  else if between 241 243 c then Some (4%nat, 128, 191)
  else if between 244 244 c then Some (4%nat, 128, 143)
  else None.

Fixpoint runeCountBytes (l : list ascii) : Z :=
  match l with
  | [] => 0
  | c :: t =>
      1 +
      match leadByte c with
      | None => runeCountBytes t
      | Some (size, lo, hi) =>
          match t with
          | c1 :: t1 =>
              if between lo hi c1 then
                if (size =? 2)%nat then runeCountBytes t1
                else
                  match t1 with
                  | c2 :: t2 =>
                      if between 128 191 c2 then
                        if (size =? 3)%nat then runeCountBytes t2
                        else
                          match t2 with
                          | c3 :: t3 =>
                              if between 128 191 c3 then runeCountBytes t3
                              else runeCountBytes t
                          | [] => runeCountBytes t
                          end
                      else runeCountBytes t
                  | [] => runeCountBytes t
                  end
              else runeCountBytes t
          | [] => 0
          end
      end
  end.

Definition runeCount (s : string) : Z := runeCountBytes (chars s).

Definition spaces (n : Z) : string := str (repeat " "%char (Z.to_nat n)).

(** [%-25s] and [%8d]: padding with spaces up to a width counted in
    runes, on the right and on the left. *)
Definition padRight (width : Z) (s : string) : string :=
  s ++ spaces (width - runeCount s).

Definition padLeft (width : Z) (s : string) : string :=
  spaces (width - runeCount s) ++ s.

(** The elements of a slice with their indices, as [range] yields them. *)
Definition indexed {A : Type} (l : list A) : list (Z * A) :=
  combine (map Z.of_nat (seq 0 (List.length l))) l.

(** The number of "log entries" of a file: its non-blank lines, and 0 when
    the file cannot be opened. *)
Definition getLogEntryCount (w : World) (filepath : string) : Z :=
  match os_Open (disk w) filepath with
  | inl _ => 0
  | inr lines =>
      fold_left
        (fun count text =>
           if negb (String.eqb (strings_TrimSpace text) "") then count + 1
           else count)
        lines 0
  end.

Section Views.

Variable Render : Style -> string -> string.

(** [lipgloss.NewStyle().Padding(1, 2).Render(s)], the frame of [View]. *)
Variable RenderPadded : string -> string.

Definition mainOptions : list string :=
  [ "📦 Install/Setup Logger";
    "📋 View Logs";
    "🌐 View All Logs (Global)";
    "⚙️  Settings";
    "❌ Quit" ].

Definition renderMain (m : Model) : string :=
  let title := Render (fgBold "99") "🐕 Logdog" in
  let status :=
    match language m with
    | Some l =>
        let status :=
          "Detected: " ++ Name l ++ " project in " ++ projectPath m in
        if len (logFiles m) >? 0
        then status ++ " (" ++ itoa (len (logFiles m)) ++ " log files)"
        else status
    | None => "No supported project detected in " ++ projectPath m
    end in
  let optionsStr :=
    fold_left
      (fun acc io =>
         match io with
         | (i, option) =>
             acc ++ ((if cursor m =? i then ">" else " ")
                     ++ " " ++ option ++ nl)
         end)
      (indexed mainOptions) "" in
  let messageStr :=
    if negb (String.eqb (message m) "")
    then nl ++ Render (fg "226") (message m)
    else "" in
  title ++ nl ++ nl ++ status ++ nl ++ nl ++ optionsStr ++ messageStr.

Definition renderInstall (m : Model) : string :=
  match language m with
  | None => "No supported language detected. Press ESC to go back."
  | Some l =>
      "Installing logger for " ++ Name l ++ " project..." ++ nl ++ nl
      ++ "This will create:" ++ nl
      ++ "- internal/logdog/logger.go" ++ nl
      ++ "- logdog/logs/ directory" ++ nl ++ nl
      ++ "Press ENTER to install or ESC to cancel"
  end.

Definition selectedStyle : Style := mkStyle (Some "230") (Some "57") false.

Definition normalStyle : Style := fg "252".

(** One row of the log list, before styling:
    [fmt.Sprintf("%-25s %8d entries", filename, entryCount)]. *)
Definition logRow (w : World) (file : string) : string :=
  let entryCount := getLogEntryCount w file in
  let filename := filepath_Base file in
  padRight 25 filename ++ " " ++ padLeft 8 (itoa entryCount) ++ " entries".

Definition renderLogs (m : Model) (w : World) : string :=
  if len (logFiles m) =? 0 then "No log files found. Press ESC to go back."
  else
    let headerText :=
      if negb (String.eqb (selectedProject m) "")
      then "Log Files - " ++ selectedProject m
      else "Log Files" in
    let header := Render (fgBold "99") headerText in
    let rows :=
      map (fun ifile =>
             match ifile with
             | (i, file) =>
                 let row := logRow w file in
                 if i =? cursor m then Render selectedStyle ("> " ++ row)
                 else Render normalStyle ("  " ++ row)
             end)
          (indexed (logFiles m)) in
    let instructions :=
      Render (fg "240")
        (nl ++ "Press 'v' to view, 'd' to delete, 'c' to clear old logs, ESC to go back") in
    let messageStr :=
      if negb (String.eqb (message m) "")
      then nl ++ nl ++ Render (fg "226") (message m)
      else "" in
    header ++ nl ++ nl ++ strings_Join rows nl ++ instructions ++ messageStr.

Definition renderSettings (m : Model) : string :=
  let header := Render (fgBold "99") "⚙️ Settings" in
  let settingsText :=
    "Log Retention: " ++ itoa (retentionDays m) ++ " days" ++ nl ++ nl
    ++ "Use +/- to adjust retention days" in
  let instructions :=
    Render (fg "240") (nl ++ "Press +/- to adjust, ESC to go back") in
  let messageStr :=
    if negb (String.eqb (message m) "")
    then nl ++ nl ++ Render (fg "226") (message m)
    else "" in
  header ++ nl ++ nl ++ settingsText ++ instructions ++ messageStr.

Definition renderGlobalProjects (m : Model) : string :=
  if len (globalProjects m) =? 0
  then "No projects found in ~/logdog/" ++ nl ++ nl ++ "Press ESC to go back"
  else
    let header := Render (fgBold "99") "🌐 Select Project" in
    let rows :=
      map (fun iproject =>
             match iproject with
             | (i, project) =>
                 if i =? cursor m then Render selectedStyle ("> " ++ project)
                 else Render normalStyle ("  " ++ project)
             end)
          (indexed (globalProjects m)) in
    let instructions :=
      Render (fg "240") (nl ++ "Press ENTER to view logs, ESC to go back") in
    let messageStr :=
      if negb (String.eqb (message m) "")
      then nl ++ nl ++ Render (fg "226") (message m)
      else "" in
    header ++ nl ++ nl ++ strings_Join rows nl ++ instructions ++ messageStr.

(** [View]: the screen's text inside the padded frame; [None] when the
    rendering panics. *)
Definition View (m : Model) (w : World) : option string :=
  let s :=
    match mscreen m with
    | screenMain => Some (renderMain m)
    | screenInstall => Some (renderInstall m)
    | screenLogs => Some (renderLogs m w)
    | screenLogView => renderLogView Render m
    | screenSettings => Some (renderSettings m)
    | screenGlobalProjects => Some (renderGlobalProjects m)
    end in
  option_map RenderPadded s.

End Views.

(** The loop of [confirmClearOldLogs] on its own: the file tree it leaves,
    the number of files deleted and the errors collected. *)
Definition clearOutcome (m : Model) (w : World) : FS * Z * list string :=
  fold_left (clearStep (AddDate_days (now w) (- retentionDays m)))
    (logFiles m) (disk w, 0, []).

(** Pressing one key [n] times. *)
Definition presses (key : string) (n : nat) : list Msg :=
  repeat (KeyMsg key) n.

(** ** Notions used by the statements *)

(** The cursor bound as the specification words it: 4 on Main, the last
    index of the list on LogList and GlobalProjectSelect, 0 elsewhere, and 0
    when the list is empty. *)
Definition specMaxCursor (m : Model) : Z :=
  match mscreen m with
  | screenMain => 4
  | screenLogs =>
      if len (logFiles m) =? 0 then 0 else len (logFiles m) - 1
  | screenGlobalProjects =>
      if len (globalProjects m) =? 0 then 0 else len (globalProjects m) - 1
  | _ => 0
  end.

(** The key names with a case of their own in the switch of [Update]. *)
Definition boundKeys : list string :=
  ["q"; "ctrl+c"; "up"; "k"; "down"; "j"; "enter"; "v"; "d"; "c"; "y";
   "+"; "="; "-"; "_"; "esc"].

(** The bound keys whose case is guarded by "no confirmation pending",
    together with the quit keys. *)
Definition guardedKeys : list string :=
  ["q"; "ctrl+c"; "up"; "k"; "down"; "j"; "enter"; "v"; "d"; "c";
   "+"; "="; "-"; "_"].

(** Two models that differ at most in the message and the two
    confirmation flags. *)
Definition sameButPrompt (m m' : Model) : Prop :=
  mscreen m' = mscreen m /\ projectPath m' = projectPath m /\
  language m' = language m /\ config m' = config m /\
  logFiles m' = logFiles m /\ cursor m' = cursor m /\
  deleteFileIndex m' = deleteFileIndex m /\ logContent m' = logContent m /\
  globalProjects m' = globalProjects m /\
  selectedProject m' = selectedProject m /\
  retentionDays m' = retentionDays m.


(** The texts [s] that contain the [parts] one after the other, without
    overlap. *)
Fixpoint containsInOrder (parts : list string) (s : string) : Prop :=
  match parts with
  | [] => True
  | p :: rest => exists a b, s = a ++ p ++ b /\ containsInOrder rest b
  end.

(** Text without control characters (no tab, no line break). *)
Definition plainText (s : string) : bool :=
  forallb (fun c => (32 <=? nat_of_ascii c)%nat) (chars s).

(** What the invariants of a run are made of. *)
Record Inv (m : Model) : Prop := mkInv {
  inv_cursor : 0 <= cursor m;
  inv_deleteFileIndex : 0 <= deleteFileIndex m;
  inv_retention : 1 <= retentionDays m <= 365;
  inv_exclusive : confirmingDelete m && confirmingClear m = false;
  inv_confirm_screen : confirming m = true -> mscreen m = screenLogs
}.

(** The sentence "a key other than [y] cancels the pending confirmation",
    as the specification words it, for one state and one key: the
    transition clears the confirmation flags, leaves the file tree as it
    is, and keeps screen, cursor and file list. *)
Definition cancelsOnKey (json_Unmarshal : string -> option object)
    (Render : Style -> string -> string) (m : Model) (w : World)
    (k : string) : Prop :=
  exists m' c,
    Update json_Unmarshal Render (KeyMsg k) m w = Some (m', c, w) /\
    confirmingDelete m' = false /\ confirmingClear m' = false /\
    mscreen m' = mscreen m /\ cursor m' = cursor m /\
    logFiles m' = logFiles m.

(** The sentence "esc returns to Main and resets", as the specification
    words it, for one state. *)
Definition escResets (json_Unmarshal : string -> option object)
    (Render : Style -> string -> string) (m : Model) (w : World) : Prop :=
  exists m' c w',
    Update json_Unmarshal Render (KeyMsg "esc") m w = Some (m', c, w') /\
    mscreen m' = screenMain /\ cursor m' = 0 /\ message m' = "" /\
    logContent m' = "" /\ selectedProject m' = "" /\
    confirmingDelete m' = false /\ confirmingClear m' = false.

(** The state a cancelled confirmation leaves. *)
Definition cancelled (m : Model) : Model :=
  set_message (set_confirmingClear (set_confirmingDelete m false) false) "".


(** ** Sample states *)

Definition defaultConfig : Config :=
  mkConfig "INFO" "logdog/logs" 30 "2006-01-02".

Definition agedLogs : list string :=
  [ "/work/app/logdog/logs/logdog-2024-01-14.json";
    "/work/app/logdog/logs/logdog-2024-01-05.json";
    "/work/app/logdog/logs/logdog-2023-12-16.json" ].

(** The log list of [agedWorld], reached from start-up by [down],
    [enter]. *)
Definition logListModel : Model :=
  mkModel screenLogs "/work/app" (Some GoLanguage) defaultConfig agedLogs
    0 "" false false 0 "" [] "" 7.

(** The same list with a delete prompt pending on its first file, reached
    by [down], [enter], [d]. *)
Definition pendingDeleteModel : Model :=
  mkModel screenLogs "/work/app" (Some GoLanguage) defaultConfig agedLogs
    0 "Delete logdog-2024-01-14.json? Press 'y' to confirm, any other key to cancel"
    true false 0 "" [] "" 7.

(** The same list with the cursor on its second file, reached by [down],
    [enter], [down]. *)
Definition secondFileModel : Model :=
  mkModel screenLogs "/work/app" (Some GoLanguage) defaultConfig agedLogs
    1 "" false false 0 "" [] "" 7.

(** [shopWorld] after [down], [down], [enter], [enter], [down], [down],
    [d], [y]: the third file of the global project deleted. *)
Definition strandedModel : Model :=
  mkModel screenLogs "/work/app" (Some GoLanguage) defaultConfig []
    2 "✅ Deleted logdog-2024-01-14.json" false false 2 "" ["shop"] "shop" 7.

(** [shopWorld] after the retention is lowered to one day and the two
    older files of the global project are cleared with [c], [y] from the
    third row. *)
Definition clearedModel : Model :=
  mkModel screenLogs "/work/app" (Some GoLanguage) defaultConfig []
    0 "✅ Cleared 2 old log files" false false 0 "" ["shop"] "shop" 1.

(** [plainWorld] after [down], [down], [enter], [enter], [d], [y]: the one
    file of the global project deleted, no language detected. *)
Definition staleModel : Model :=
  mkModel screenLogs "/tmp" None defaultConfig
    ["/home/u/logdog/shop/logdog-2024-01-06.json"]
    0 "✅ Deleted logdog-2024-01-06.json" false false 0 "" ["shop"] "shop" 7.

(** [plainWorld] after [down], [down], [enter], [enter], [c], [y]. *)
Definition staleClearedModel : Model :=
  mkModel screenLogs "/tmp" None defaultConfig
    ["/home/u/logdog/shop/logdog-2024-01-06.json"]
    0 "✅ Cleared 1 old log files" false false 0 "" ["shop"] "shop" 7.

(** The settings screen of [agedWorld], reached by three [down] and
    [enter]. *)
Definition settingsModel : Model :=
  mkModel screenSettings "/work/app" (Some GoLanguage) defaultConfig agedLogs
    0 "" false false 0 "" [] "" 7.

(** The log record of the README, as decoded. *)
Definition sampleEntry : object :=
  [ ("timestamp", JStr "2024-01-15T14:30:45Z");
    ("level", JStr "INFO");
    ("message", JStr "hi");
    ("data", JObj [("x", JNum 1)]) ].

Definition sampleLine : string :=
  "{" ++ str [dquote] ++ "timestamp" ++ str [dquote] ++ ":"
  ++ str [dquote] ++ "2024-01-15T14:30:45Z" ++ str [dquote] ++ ","
  ++ str [dquote] ++ "level" ++ str [dquote] ++ ":"
  ++ str [dquote] ++ "INFO" ++ str [dquote] ++ ","
  ++ str [dquote] ++ "message" ++ str [dquote] ++ ":"
  ++ str [dquote] ++ "hi" ++ str [dquote] ++ ","
  ++ str [dquote] ++ "data" ++ str [dquote] ++ ":{"
  ++ str [dquote] ++ "x" ++ str [dquote] ++ ":1}}".

(** A line the scanning loops keep: one that is not blank once trimmed. *)
Definition nonBlank (text : string) : bool :=
  negb (String.eqb (strings_TrimSpace text) "").

(** What a pending prompt says about the state. *)
Definition promptMatches (m : Model) : Prop :=
  (confirmingDelete m = true ->
   cursor m = deleteFileIndex m /\
   exists path,
     index (logFiles m) (deleteFileIndex m) = Some path /\
     message m = "Delete " ++ filepath_Base path
                 ++ "? Press 'y' to confirm, any other key to cancel") /\
  (confirmingClear m = true ->
   exists n,
     0 < n <= len (logFiles m) /\
     message m = "Clear " ++ itoa n ++ " log files older than "
                 ++ itoa (retentionDays m)
                 ++ " days? Press 'y' to confirm, any other key to cancel").

(** ** More sample states *)

(** The log list of [agedWorld] with the clear prompt pending, reached by
    [down], [enter], [c]. *)
Definition pendingClearModel : Model :=
  mkModel screenLogs "/work/app" (Some GoLanguage) defaultConfig agedLogs
    0 "Clear 2 log files older than 7 days? Press 'y' to confirm, any other key to cancel"
    false true 0 "" [] "" 7.

(** The log list of the global project of [plainWorld], reached by [down],
    [down], [enter], [enter]. *)
Definition globalListModel : Model :=
  mkModel screenLogs "/tmp" None defaultConfig
    ["/home/u/logdog/shop/logdog-2024-01-06.json"]
    0 "" false false 0 "" ["shop"] "shop" 7.

(** The list of global projects of [plainWorld], reached by [down],
    [down], [enter]. *)
Definition projectListModel : Model :=
  mkModel screenGlobalProjects "/tmp" None defaultConfig []
    0 "" false false 0 "" ["shop"] "" 7.

(** [plainWorld] once the log file of its global project is gone. *)
Definition goneWorld : World :=
  mkWorld noon
    [ ("/tmp", dirNode 0);
      ("/home", dirNode 0);
      ("/home/u", dirNode 0);
      ("/home/u/logdog", dirNode 0);
      ("/home/u/logdog/shop", dirNode 0) ]
    (Some "/home/u") "/tmp".

(** A line that decodes to a record with none of the known fields. *)
Definition otherLine : string :=
  "{" ++ str [dquote] ++ "user" ++ str [dquote] ++ ":"
  ++ str [dquote] ++ "amy" ++ str [dquote] ++ "}".

(** * Properties *)

(** ** Helper lemmas *)

Lemma len_nonneg {A : Type} (l : list A) : 0 <= len l.
Proof. unfold len. lia. Qed.

Lemma len_nil {A : Type} : len (@nil A) = 0.
Proof. reflexivity. Qed.

Lemma len_zero_nil {A : Type} (l : list A) : len l = 0 -> l = [].
Proof. destruct l; [reflexivity | unfold len; simpl; lia]. Qed.

Lemma index_some {A : Type} (l : list A) (i : Z) :
  0 <= i < len l -> exists x, index l i = Some x.
Proof.
  intros [H0 H1]. unfold index.
  replace (0 <=? i) with true by (symmetry; apply Z.leb_le; exact H0).
  replace (i <? len l) with true by (symmetry; apply Z.ltb_lt; exact H1).
  simpl. destruct (nth_error l (Z.to_nat i)) eqn:E.
  - eauto.
  - apply nth_error_None in E. unfold len in H1. lia.
Qed.

Lemma index_In {A : Type} (l : list A) (i : Z) (x : A) :
  index l i = Some x -> In x l.
Proof.
  unfold index. destruct ((0 <=? i) && (i <? len l)); [|discriminate].
  apply nth_error_In.
Qed.

Lemma isKey_In (k : string) (names : list string) :
  isKey k names = true <-> In k names.
Proof.
  unfold isKey. rewrite existsb_exists. split.
  - intros [x [Hx E]]. apply String.eqb_eq in E. subst. exact Hx.
  - intros H. exists k. split; [exact H | apply String.eqb_refl].
Qed.

Lemma isKey_notIn (k : string) (names : list string) :
  ~ In k names -> isKey k names = false.
Proof.
  intros H. destruct (isKey k names) eqn:E; [|reflexivity].
  apply isKey_In in E. contradiction.
Qed.

Lemma isKey_sub (k : string) (names all : list string) :
  ~ In k all -> incl names all -> isKey k names = false.
Proof. intros H I. apply isKey_notIn. intro X. apply H, I, X. Qed.


Lemma append_assoc (a b c : string) : (a ++ b) ++ c = a ++ (b ++ c).
Proof. induction a as [| x a IH]; simpl; [reflexivity | now rewrite IH]. Qed.




Ltac bound_incl :=
  let x := fresh in
  intros x; simpl; unfold boundKeys; simpl; intuition (subst; auto 20).

(** Case analysis on the conditionals of a transition. *)
Ltac break_hyp H :=
  repeat match type of H with
  | context [if ?b then _ else _] => destruct b eqn:?
  | context [match ?x with _ => _ end] => destruct x eqn:?
  end.

Ltac out_inv H :=
  unfold ret in H; first [discriminate H | injection H as <- <- <-].

Ltac bools :=
  repeat match goal with
  | H : _ && _ = true |- _ => apply andb_prop in H; destruct H
  | H : _ || _ = false |- _ => apply orb_false_elim in H; destruct H
  | H : negb _ = true |- _ => apply negb_true_iff in H
  | H : negb _ = false |- _ => apply negb_false_iff in H
  | H : (_ <? _) = true |- _ => apply Z.ltb_lt in H
  | H : (_ <? _) = false |- _ => apply Z.ltb_ge in H
  | H : (_ >? _) = true |- _ => apply Z.gtb_lt in H
  | H : (_ >? _) = false |- _ => rewrite Z.gtb_ltb in H
  | H : (_ >=? _) = true |- _ => rewrite Z.geb_leb in H
  | H : (_ >=? _) = false |- _ => rewrite Z.geb_leb in H
  | H : (_ <=? _) = true |- _ => apply Z.leb_le in H
  | H : (_ <=? _) = false |- _ => apply Z.leb_gt in H
  | H : (_ =? _) = true |- _ => apply Z.eqb_eq in H
  | H : (_ =? _) = false |- _ => apply Z.eqb_neq in H
  end.

Section Properties.

Variable json_Unmarshal : string -> option object.
Variable Render : Style -> string -> string.

(** A key outside the switch's cases takes the [default] branch. *)
Lemma Update_default (k : string) (m : Model) (w : World) :
  ~ In k boundKeys ->
  Update json_Unmarshal Render (KeyMsg k) m w =
  if confirmingDelete m || confirmingClear m then
    ret (set_message (set_confirmingClear (set_confirmingDelete m false) false) "")
        CmdNil w
  else ret (set_message m "") CmdNil w.
Proof.
  intros H. unfold Update.
  rewrite !(isKey_sub k _ boundKeys H) by bound_incl.
  reflexivity.
Qed.

Lemma screen_eqb_eq (a b : screen) : screen_eqb a b = true <-> a = b.
Proof. destruct a, b; simpl; split; congruence. Qed.

Lemma refreshLogFiles_frame (m : Model) (w : World) :
  let m' := refreshLogFiles m w in
  mscreen m' = mscreen m /\ cursor m' = cursor m /\
  confirmingDelete m' = confirmingDelete m /\
  confirmingClear m' = confirmingClear m /\
  deleteFileIndex m' = deleteFileIndex m /\
  retentionDays m' = retentionDays m /\ message m' = message m.
Proof. unfold refreshLogFiles. destruct (language m); simpl; auto 10. Qed.

(** Every transition keeps the invariant. *)
Lemma Update_Inv (msg : Msg) (m m' : Model) (w w' : World) (c : Cmd) :
  Inv m ->
  Update json_Unmarshal Render msg m w = Some (m', c, w') ->
  Inv m'.
Proof.
  intros [Hc Hd Hr Hx Hs] H.
  destruct msg as [k|]; [| out_inv H; constructor; assumption].
  destruct (in_dec string_dec k boundKeys) as [Hin | Hout].
  - unfold boundKeys in Hin; simpl in Hin.
    repeat (destruct Hin as [<- | Hin]; [
      cbn in H;
      unfold handleEnter, handleViewLog, viewLogContent, handleDeleteLog,
        handleClearOldLogs, confirmDelete, confirmClearOldLogs,
        refreshLogFiles in H;
      break_hyp H; out_inv H;
      repeat match goal with
             | E : match _ with _ => _ end = (_, _) |- _ =>
                 break_hyp E; injection E as <- <-
             end;
      unfold confirming in *; bools;
      constructor; cbn; unfold confirming; cbn;
      repeat match goal with
             | E : ?b = _ |- context [?b] => rewrite E
             | E : ?b = _, X : context [?b] |- _ => rewrite E in X
             end;
      cbn in *; try tauto; try lia; try congruence;
      try (intros; apply screen_eqb_eq; assumption)
      | ]); contradiction.
  - rewrite (Update_default k m w Hout) in H.
    break_hyp H; out_inv H; constructor; cbn; unfold confirming; cbn;
      try assumption; try reflexivity; try discriminate.
Qed.

Lemma NewModel_Inv (langs : list Language) (w0 : World) :
  Inv (NewModel langs w0).
Proof.
  constructor; cbn; try lia; try reflexivity; discriminate.
Qed.

Lemma reachable_Inv (langs : list Language) (w0 : World) (m : Model)
    (w : World) :
  reachable json_Unmarshal Render langs w0 m w -> Inv m.
Proof.
  induction 1 as [| m w t _ IH | m w msg m' c w' _ IH H].
  - apply NewModel_Inv.
  - exact IH.
  - exact (Update_Inv msg m m' w w' c IH H).
Qed.

(** A run by [run] ends in a reachable state. *)
Lemma run_reachable_from (langs : list Language) (w0 : World)
    (msgs : list Msg) :
  forall m w m' w',
    reachable json_Unmarshal Render langs w0 m w ->
    run json_Unmarshal Render msgs m w = Some (m', w') ->
    reachable json_Unmarshal Render langs w0 m' w'.
Proof.
  induction msgs as [| msg rest IH]; intros m w m' w' R H; simpl in H.
  - injection H as <- <-. exact R.
  - destruct (Update json_Unmarshal Render msg m w) as [[[m1 c1] w1]|] eqn:E;
      [| discriminate].
    assert (R1 : reachable json_Unmarshal Render langs w0 m1 w1)
      by (eapply reach_step; eassumption).
    destruct c1; [eapply IH; eassumption | | eapply IH; eassumption].
    injection H as <- <-. exact R1.
Qed.

Lemma run_reachable (langs : list Language) (w0 : World) (msgs : list Msg)
    (m' : Model) (w' : World) :
  run json_Unmarshal Render msgs (NewModel langs w0) w0 = Some (m', w') ->
  reachable json_Unmarshal Render langs w0 m' w'.
Proof. apply run_reachable_from. apply reach_init. Qed.

(** No transition from a state with the invariant panics. *)
Lemma Update_total (msg : Msg) (m : Model) (w : World) :
  Inv m -> exists out, Update json_Unmarshal Render msg m w = Some out.
Proof.
  intros [Hc Hd Hr Hx Hs].
  destruct msg as [k|]; [| eexists; reflexivity].
  destruct (in_dec string_dec k boundKeys) as [Hin | Hout].
  - unfold boundKeys in Hin; simpl in Hin.
    repeat (destruct Hin as [<- | Hin]; [
      cbn;
      unfold handleEnter, handleViewLog, viewLogContent, handleDeleteLog,
        handleClearOldLogs, confirmDelete, confirmClearOldLogs, ret;
      repeat match goal with
             | |- exists out, Some _ = Some out => eexists; reflexivity
             | |- context [index ?l ?i] =>
                 let E := fresh "E" in
                 destruct (index l i) eqn:E
             | |- context [if ?b then _ else _] => destruct b eqn:?
             | |- context [match ?x with _ => _ end] => destruct x eqn:?
             end
      | ]); try contradiction.
    all: bools;
      match goal with
      | E : index ?l ?i = None |- _ =>
          destruct (index_some l i) as [x Hx']; [lia | congruence]
      end.
  - rewrite (Update_default k m w Hout).
    destruct (confirmingDelete m || confirmingClear m); eexists; reflexivity.
Qed.

(** Along a run no transition panics: every slice index is in range. *)
Lemma reachable_total (langs : list Language) (w0 : World) (m : Model)
    (w : World) (msg : Msg) :
  reachable json_Unmarshal Render langs w0 m w ->
  exists out, Update json_Unmarshal Render msg m w = Some out.
Proof.
  intros R. apply Update_total. exact (reachable_Inv langs w0 m w R).
Qed.

(** ** The cursor (claim C1) *)

(** Every transition but the confirmed delete keeps the cursor within the
    bound of the specification. *)
Lemma Update_cursor_bound (msg : Msg) (m m' : Model) (w w' : World)
    (c : Cmd) :
  Inv m ->
  0 <= cursor m <= specMaxCursor m ->
  Update json_Unmarshal Render msg m w = Some (m', c, w') ->
  0 <= cursor m' <= specMaxCursor m' \/
  (msg = KeyMsg "y" /\ confirmingDelete m = true).
Proof.
  intros I B H.
  pose proof (inv_cursor m' (Update_Inv msg m m' w w' c I H)) as C'.
  destruct I as [Hc Hd Hr Hx Hs].
  destruct msg as [k|]; [| out_inv H; left; assumption].
  destruct (in_dec string_dec k boundKeys) as [Hin | Hout].
  - unfold boundKeys in Hin; simpl in Hin.
    repeat (destruct Hin as [<- | Hin]; [
      cbn in H;
      unfold handleEnter, handleViewLog, viewLogContent, handleDeleteLog,
        handleClearOldLogs, confirmClearOldLogs, refreshLogFiles in H;
      try (destruct (confirmingDelete m) eqn:Ecd;
           [right; split; reflexivity |]);
      break_hyp H; out_inv H;
      repeat match goal with
             | E : match _ with _ => _ end = (_, _) |- _ =>
                 break_hyp E; injection E as <- <-
             end;
      left; unfold specMaxCursor, getMaxCursor in *; cbn in *;
      repeat match goal with
             | E : mscreen _ = _ |- _ => rewrite E in *
             | E : screen_eqb _ _ = true |- _ =>
                 apply screen_eqb_eq in E; rewrite E in *
             end;
      cbn in *; bools;
      repeat match goal with
             | |- context [len ?l] =>
                 lazymatch goal with
                 | _ : 0 <= len l |- _ => fail
                 | _ => pose proof (len_nonneg l)
                 end
             end;
      repeat match goal with
             | |- context [if ?b then _ else _] => destruct b eqn:?
             | X : context [if ?b then _ else _] |- _ => destruct b eqn:?
             | |- context [match ?x with _ => _ end] => destruct x eqn:?
             | X : context [match ?x with _ => _ end] |- _ => destruct x eqn:?
             end;
      cbn in *; bools; try lia; try discriminate
      | ]); contradiction.
  - rewrite (Update_default k m w Hout) in H.
    break_hyp H; out_inv H; left; cbn; assumption.
Qed.

(** The confirmed delete keeps the cursor within the bound as long as the
    list it ends with is not empty; with an empty list the cursor is left
    where it was. *)
Lemma confirmDelete_cursor_bound (m m' : Model) (w w' : World) (c : Cmd) :
  mscreen m = screenLogs ->
  0 <= cursor m <= specMaxCursor m ->
  confirmDelete m w = Some (m', c, w') ->
  (logFiles m' <> [] -> 0 <= cursor m' <= specMaxCursor m') /\
  (logFiles m' = [] -> cursor m' = cursor m).
Proof.
  intros Hs B H. unfold confirmDelete, refreshLogFiles in H.
  break_hyp H; out_inv H;
    unfold specMaxCursor in *; cbn in *; rewrite Hs in *; cbn in *;
    (split; intros L;
     [ repeat match goal with
              | |- context [len ?l] =>
                  lazymatch goal with
                  | _ : 0 <= len l |- _ => fail
                  | _ => pose proof (len_nonneg l)
                  end
              end;
       repeat match goal with
              | |- context [if ?b then _ else _] => destruct b eqn:?
              | X : context [if ?b then _ else _] |- _ => destruct b eqn:?
              end;
       bools;
       try (match goal with
            | E : len ?l = 0 |- _ => apply len_zero_nil in E; congruence
            end);
       try lia
     | try reflexivity;
       try (rewrite L in *; bools; rewrite ?len_nil in *;
            first [discriminate | lia]) ]).
Qed.

(** ** The refresh after a deletion (claim C3) *)

Lemma lookupPath_filter_other (f : FS) (p : string) :
  lookupPath (filter (fun e => negb (String.eqb (fst e) p)) f) p = None.
Proof.
  induction f as [| [q n] f IH]; [reflexivity |].
  simpl. destruct (String.eqb q p) eqn:E; simpl; [exact IH |].
  rewrite E. exact IH.
Qed.

(** A removed path is gone from the tree. *)
Lemma os_Remove_gone (f f' : FS) (p : string) :
  os_Remove f p = (None, f') -> lookupPath f' p = None.
Proof.
  unfold os_Remove. intros H. break_hyp H; try discriminate.
  injection H as <-. apply lookupPath_filter_other.
Qed.

Lemma lookupPath_In (f : FS) (p : string) (n : Node) :
  In (p, n) f -> lookupPath f p <> None.
Proof.
  induction f as [| [q n'] f IH]; intros H; [contradiction |].
  simpl. destruct (String.eqb q p) eqn:E; [discriminate |].
  destruct H as [H | H].
  - injection H as -> _. rewrite String.eqb_refl in E. discriminate.
  - apply IH, H.
Qed.

(** The listing of the Go detector names files of the tree only. *)
Lemma goGetLogPaths_exist (projectPath : string) (w : World) (p : string) :
  In p (goGetLogPaths projectPath w) -> lookupPath (disk w) p <> None.
Proof.
  unfold goGetLogPaths. intros H. apply in_map_iff in H.
  destruct H as [[q n] [E H]]. simpl in E. subst q.
  apply filter_In in H. destruct H as [H _].
  apply (lookupPath_In _ _ n H).
Qed.

(** What list a confirmed delete ends with: the listing of the working
    directory when a language was detected, the old list otherwise; the
    selected global project plays no part. *)
Lemma confirmDelete_refresh (m m' : Model) (w w' : World) (c : Cmd)
    (filePath : string) (f : FS) :
  index (logFiles m) (deleteFileIndex m) = Some filePath ->
  os_Remove (disk w) filePath = (None, f) ->
  confirmDelete m w = Some (m', c, w') ->
  w' = setFS w f /\
  lookupPath (disk w') filePath = None /\
  logFiles m' =
    match language m with
    | Some l => GetLogPaths l (projectPath m) w'
    | None => logFiles m
    end.
Proof.
  intros Hi Hr H.
  pose proof (os_Remove_gone _ _ _ Hr) as G.
  assert (Hlt : (deleteFileIndex m <? len (logFiles m)) = true).
  { unfold index in Hi. break_hyp Hi; [| discriminate]. bools.
    apply Z.ltb_lt. assumption. }
  unfold confirmDelete, refreshLogFiles in H. rewrite Hi, Hlt, Hr in H.
  destruct (language m) eqn:El; cbn in H; rewrite El in H;
    break_hyp H; out_inv H; cbn; rewrite ?El; auto.
Qed.

(** In the working directory of a Go project the refreshed list no longer
    holds the deleted path. *)
Lemma confirmDelete_local_refresh (m m' : Model) (w w' : World) (c : Cmd)
    (filePath : string) (f : FS) :
  language m = Some GoLanguage ->
  index (logFiles m) (deleteFileIndex m) = Some filePath ->
  os_Remove (disk w) filePath = (None, f) ->
  confirmDelete m w = Some (m', c, w') ->
  ~ In filePath (logFiles m').
Proof.
  intros Hl Hi Hr H.
  destruct (confirmDelete_refresh m m' w w' c filePath f Hi Hr H)
    as [_ [G E]].
  rewrite E, Hl. intros X. apply goGetLogPaths_exist in X. contradiction.
Qed.

(** ** Cancelling and leaving (claims C2 and C4) *)

Lemma In_guarded_bound (k : string) : In k guardedKeys -> In k boundKeys.
Proof. unfold guardedKeys, boundKeys. simpl. intuition auto 20. Qed.

Lemma sameButPrompt_refl (m : Model) : sameButPrompt m m.
Proof. unfold sameButPrompt. auto 20. Qed.

Lemma sameButPrompt_cancelled (m : Model) : sameButPrompt m (cancelled m).
Proof. unfold sameButPrompt, cancelled. cbn. auto 20. Qed.

(** C2 (amended).  While a confirmation is pending, a key other than [y]
    never touches the file tree and changes at most the message and the two
    flags.  [esc] and every key without a case of its own cancel: both flags
    and the message are cleared.  The keys with a guarded case ([up], [k],
    [down], [j], [enter], [v], [d], [c], [+], [=], [-], [_]) are ignored:
    the state, pending confirmation included, stays as it is; [q] and
    [ctrl+c] quit with the state as it is. *)
Theorem other_key_while_confirming (m : Model) (w : World) (k : string) :
  confirmingDelete m || confirmingClear m = true ->
  k <> "y" ->
  exists m' c,
    Update json_Unmarshal Render (KeyMsg k) m w = Some (m', c, w) /\
    sameButPrompt m m' /\
    (In k guardedKeys ->
       m' = m /\ (c = Quit <-> In k ["q"; "ctrl+c"])) /\
    (~ In k guardedKeys ->
       m' = cancelled m /\ c = CmdNil /\
       confirmingDelete m' = false /\ confirmingClear m' = false /\
       message m' = "").
Proof.
  intros Hp Hy.
  assert (Hn : negb (confirmingDelete m) = false \/
               negb (confirmingClear m) = false).
  { destruct (confirmingDelete m), (confirmingClear m);
      simpl in *; auto; congruence. }
  destruct (in_dec string_dec k boundKeys) as [Hin | Hout].
  - unfold boundKeys in Hin; simpl in Hin.
    repeat (destruct Hin as [<- | Hin]; [
      try congruence; cbn; rewrite ?Hp;
      destruct Hn as [Hn | Hn]; rewrite ?Hn, ?andb_false_r; cbn;
      (eexists; eexists; split; [reflexivity |]);
      (split;
       [first [apply sameButPrompt_refl | apply sameButPrompt_cancelled] |]);
      (split; intros G);
      first
        [ solve [exfalso; simpl in G; intuition discriminate]
        | solve [exfalso; apply G; simpl; tauto]
        | solve [split; [reflexivity |]; split;
                 [intros _; simpl; tauto | reflexivity]]
        | solve [split; [reflexivity |]; split;
                 [discriminate | intros Q; simpl in Q; intuition discriminate]]
        | solve [cbn; auto 10] ]
      | ]); contradiction.
  - rewrite (Update_default k m w Hout), Hp.
    eexists; eexists; split; [reflexivity |].
    split; [apply sameButPrompt_cancelled |].
    split.
    + intros G. elim Hout. apply In_guarded_bound, G.
    + intros _. cbn. auto 10.
Qed.

(** C4 (amended).  On a screen other than Main, [esc] with no confirmation
    pending returns to Main with cursor 0, empty message, empty log content,
    empty selected project and both flags false, the other fields and the
    file tree untouched.  With a confirmation pending, [esc] only cancels
    it: both flags and the message are cleared and the screen, the cursor,
    the log content and the selected project stay as they are. *)
Theorem esc_resets_or_cancels (m : Model) (w : World) :
  mscreen m <> screenMain ->
  exists m',
    Update json_Unmarshal Render (KeyMsg "esc") m w = Some (m', CmdNil, w) /\
    confirmingDelete m' = false /\ confirmingClear m' = false /\
    message m' = "" /\
    projectPath m' = projectPath m /\ language m' = language m /\
    config m' = config m /\ logFiles m' = logFiles m /\
    deleteFileIndex m' = deleteFileIndex m /\
    globalProjects m' = globalProjects m /\
    retentionDays m' = retentionDays m /\
    (confirmingDelete m || confirmingClear m = false ->
       mscreen m' = screenMain /\ cursor m' = 0 /\ logContent m' = "" /\
       selectedProject m' = "") /\
    (confirmingDelete m || confirmingClear m = true ->
       m' = cancelled m /\ mscreen m' = mscreen m /\ cursor m' = cursor m /\
       logContent m' = logContent m /\
       selectedProject m' = selectedProject m).
Proof.
  intros _. cbn.
  destruct (confirmingDelete m || confirmingClear m) eqn:E;
    eexists; (split; [reflexivity |]); cbn; repeat split;
    intros; try reflexivity; try discriminate.
Qed.

(** ** The retention filter (claim C5) *)



(** ** Retention settings (claim C6) *)

(** What a transition may do to the retention threshold. *)
Lemma Update_retention (msg : Msg) (m m' : Model) (w w' : World) (c : Cmd) :
  Update json_Unmarshal Render msg m w = Some (m', c, w') ->
  retentionDays m' = retentionDays m \/
  (exists k, msg = KeyMsg k /\ In k ["+"; "="] /\
     mscreen m = screenSettings /\ retentionDays m < 365 /\
     retentionDays m' = retentionDays m + 1) \/
  (exists k, msg = KeyMsg k /\ In k ["-"; "_"] /\
     mscreen m = screenSettings /\ 1 < retentionDays m /\
     retentionDays m' = retentionDays m - 1).
Proof.
  intros H.
  destruct msg as [k|]; [| out_inv H; left; reflexivity].
  destruct (in_dec string_dec k boundKeys) as [Hin | Hout].
  - unfold boundKeys in Hin; simpl in Hin.
    repeat (destruct Hin as [<- | Hin]; [
      cbn in H;
      unfold handleEnter, handleViewLog, viewLogContent, handleDeleteLog,
        handleClearOldLogs, confirmDelete, confirmClearOldLogs,
        refreshLogFiles in H;
      break_hyp H; out_inv H;
      repeat match goal with
             | E : match _ with _ => _ end = (_, _) |- _ =>
                 break_hyp E; injection E as <- <-
             end;
      bools;
      first
        [ solve [left; reflexivity]
        | solve [right; left; eexists; split; [reflexivity |];
                 split; [simpl; tauto |];
                 split; [apply screen_eqb_eq; assumption |];
                 split; [assumption | reflexivity]]
        | solve [right; right; eexists; split; [reflexivity |];
                 split; [simpl; tauto |];
                 split; [apply screen_eqb_eq; assumption |];
                 split; [assumption | reflexivity]] ]
      | ]); contradiction.
  - rewrite (Update_default k m w Hout) in H.
    break_hyp H; out_inv H; left; reflexivity.
Qed.

(** C6.  The retention threshold is 7 at start-up and stays within
    [1, 365] along every run.  A transition changes it only on the Settings
    screen: [+] or [=] add one when it is below 365 and leave it otherwise,
    [-] or [_] take one off when it is above 1 and leave it otherwise; every
    other transition leaves it as it is. *)
Theorem retention_bounds (langs : list Language) (w0 : World)
    (m m' : Model) (w w' : World) (msg : Msg) (c : Cmd) :
  reachable json_Unmarshal Render langs w0 m w ->
  Update json_Unmarshal Render msg m w = Some (m', c, w') ->
  retentionDays (NewModel langs w0) = 7 /\
  1 <= retentionDays m <= 365 /\
  1 <= retentionDays m' <= 365 /\
  (retentionDays m' = retentionDays m \/
   (exists k, msg = KeyMsg k /\ In k ["+"; "="] /\
      mscreen m = screenSettings /\ retentionDays m < 365 /\
      retentionDays m' = retentionDays m + 1) \/
   (exists k, msg = KeyMsg k /\ In k ["-"; "_"] /\
      mscreen m = screenSettings /\ 1 < retentionDays m /\
      retentionDays m' = retentionDays m - 1)) /\
  (forall k, msg = KeyMsg k -> mscreen m = screenSettings ->
     (In k ["+"; "="] ->
        retentionDays m' =
        if retentionDays m <? 365 then retentionDays m + 1
        else retentionDays m) /\
     (In k ["-"; "_"] ->
        retentionDays m' =
        if retentionDays m >? 1 then retentionDays m - 1
        else retentionDays m)).
Proof.
  intros R H.
  pose proof (reachable_Inv langs w0 m w R) as I.
  pose proof (Update_Inv msg m m' w w' c I H) as I'.
  split; [reflexivity |].
  split; [apply (inv_retention m I) |].
  split; [apply (inv_retention m' I') |].
  split; [exact (Update_retention msg m m' w w' c H) |].
  intros k -> Hs.
  assert (Hcf : confirmingDelete m = false /\ confirmingClear m = false).
  { destruct (confirming m) eqn:E.
    - pose proof (inv_confirm_screen m I E). congruence.
    - unfold confirming in E. apply orb_false_elim in E. exact E. }
  destruct Hcf as [Hcd Hcc].
  split; intros Hk; simpl in Hk;
    destruct Hk as [<- | [<- | []]]; cbn in H;
    rewrite Hs, Hcd, Hcc in H; cbn in H;
    break_hyp H; out_inv H; reflexivity.
Qed.

(** ** Exclusive confirmations (claim C9) *)

(** C9.  In every state of every run the two confirmation flags are not
    both true. *)
Theorem confirmations_exclusive (langs : list Language) (w0 : World)
    (m : Model) (w : World) :
  reachable json_Unmarshal Render langs w0 m w ->
  ~ (confirmingDelete m = true /\ confirmingClear m = true).
Proof.
  intros R [Hd Hc].
  pose proof (inv_exclusive m (reachable_Inv langs w0 m w R)) as X.
  rewrite Hd, Hc in X. discriminate.
Qed.

(** ** The formatter (claims C7 and C8) *)

(** C7.  For a decoded record with timestamp [2024-01-15T14:30:45Z], level
    [INFO], message [hi] and data [{x: 1}], on a terminal whose styling
    surrounds plain text with escape sequences and leaves the text itself
    intact, the line of [formatLogEntry] contains [Jan 15 14:30:45],
    [[INFO]], [hi] and [{x=1}], one after the other in that order. *)
Theorem formatLogEntry_sample (entry : object) :
  (forall st s, plainText s = true ->
     exists pre post, Render st s = pre ++ s ++ post) ->
  mapGet entry "timestamp" = Some (JStr "2024-01-15T14:30:45Z") ->
  mapGet entry "level" = Some (JStr "INFO") ->
  mapGet entry "message" = Some (JStr "hi") ->
  mapGet entry "data" = Some (JObj [("x", JNum 1)]) ->
  containsInOrder ["Jan 15 14:30:45"; "[INFO]"; "hi"; "{x=1}"]
    (formatLogEntry Render entry).
Proof.
  intros W Ht Hl Hm Hd.
  assert (Et : time_Parse_RFC3339 "2024-01-15T14:30:45Z"
               = Some (mkTime 1 15 14 30 45)) by (vm_compute; reflexivity).
  assert (Ef : Format_Jan02 (mkTime 1 15 14 30 45) = "Jan 15 14:30:45")
    by (vm_compute; reflexivity).
  assert (Ed : "{" ++ strings_Join
                 (map (fun p : string * any =>
                         match p with (k, v) => k ++ "=" ++ fmt_v v end)
                      [("x", JNum 1)]) ", " ++ "}" = "{x=1}")
    by (vm_compute; reflexivity).
  unfold formatLogEntry. rewrite Ht, Hl, Hm, Hd.
  cbv beta iota delta [asString asObject].
  rewrite Et, Ef, Ed.
  change (negb ("2024-01-15T14:30:45Z" =? "")%string) with true.
  change (negb ("INFO" =? "")%string) with true.
  change (negb ("hi" =? "")%string) with true.
  change (len [("x", JNum 1)] >? 0) with true.
  change (levelColor "INFO") with "46".
  change ("[" ++ "INFO" ++ "]") with "[INFO]".
  cbv iota.
  destruct (W (fg "240") "Jan 15 14:30:45" eq_refl) as [a1 [b1 ->]].
  destruct (W (fgBold "46") "[INFO]" eq_refl) as [a2 [b2 ->]].
  destruct (W (fg "252") "hi" eq_refl) as [a3 [b3 ->]].
  destruct (W (fg "99") "{x=1}" eq_refl) as [a4 [b4 ->]].
  cbn [containsInOrder].
  exists a1. eexists. split; [rewrite !append_assoc; reflexivity |].
  exists (b1 ++ " " ++ a2). eexists.
  split; [rewrite !append_assoc; reflexivity |].
  exists (b2 ++ " " ++ a3). eexists.
  split; [rewrite !append_assoc; reflexivity |].
  exists (b3 ++ " " ++ a4). exists b4.
  split; [rewrite !append_assoc; reflexivity | exact I].
Qed.



(** ** The header of the log view (claim C10) *)



End Properties.

(** * The claims at concrete inputs *)

(** ** Reaching the sample states *)

Lemma logListModel_run :
  after ["down"; "enter"] agedWorld = Some (logListModel, agedWorld).
Proof. vm_compute. reflexivity. Qed.

Lemma secondFileModel_run :
  after ["down"; "enter"; "down"] agedWorld
  = Some (secondFileModel, agedWorld).
Proof. vm_compute. reflexivity. Qed.

Lemma pendingDeleteModel_run :
  after ["down"; "enter"; "d"] agedWorld
  = Some (pendingDeleteModel, agedWorld).
Proof. vm_compute. reflexivity. Qed.

Lemma settingsModel_run :
  after ["down"; "down"; "down"; "enter"] agedWorld
  = Some (settingsModel, agedWorld).
Proof. vm_compute. reflexivity. Qed.

Lemma sampleLine_decodes : jsonDecode sampleLine = Some sampleEntry.
Proof. vm_compute. reflexivity. Qed.

Lemma after_reachable (names : list string) (w0 : World) (m : Model)
    (w : World) :
  after names w0 = Some (m, w) ->
  reachable jsonDecode plainRender SupportedLanguages w0 m w.
Proof. apply run_reachable. Qed.

Lemma ansiRender_wraps (st : Style) (s : string) :
  plainText s = true -> exists pre post, ansiRender st s = pre ++ s ++ post.
Proof.
  intros _. unfold ansiRender.
  set (codes := strings_Join _ ";").
  exists (esc ++ codes ++ "m"). exists (esc ++ "0m").
  rewrite !append_assoc. reflexivity.
Qed.

(** ** C1: the cursor after a confirmed delete *)

(** C1 (the code at the failing input).  A Go project without logs of its
    own, the global project [shop] with three log files: open the global
    list, select [shop], move to the third file, delete it and confirm.  The
    refreshed list is the project's own, which is empty, and [confirmDelete]
    leaves the cursor at 2 on the log list: outside [0, 0].  The sibling
    [confirmClearOldLogs] resets the cursor to 0 in the same situation
    (retention lowered to one day, so that two of the three files are
    old). *)
Theorem confirmDelete_leaves_cursor_past_empty_list :
  (exists w,
     after ["down"; "down"; "enter"; "enter"; "down"; "down"; "d"; "y"]
       shopWorld = Some (strandedModel, w)) /\
  mscreen strandedModel = screenLogs /\ logFiles strandedModel = [] /\
  cursor strandedModel = 2 /\ specMaxCursor strandedModel = 0 /\
  getMaxCursor strandedModel = -1 /\
  ~ (0 <= cursor strandedModel <= specMaxCursor strandedModel) /\
  (exists w,
     after ["down"; "down"; "down"; "enter"; "-"; "-"; "-"; "-"; "-"; "-";
            "esc"; "down"; "down"; "enter"; "enter"; "down"; "down";
            "c"; "y"]
       shopWorld = Some (clearedModel, w)) /\
  mscreen clearedModel = screenLogs /\ logFiles clearedModel = [] /\
  cursor clearedModel = 0.
Proof.
  split; [eexists; vm_compute; reflexivity |].
  repeat (split; [reflexivity |]).
  split; [cbn; lia |].
  split; [eexists; vm_compute; reflexivity |].
  repeat split.
Qed.

(** ** C2: keys while a confirmation is pending *)

(** C2 (counterexample).  With the delete prompt pending on the log list,
    [up] is a key other than [y], and it does not cancel: the transition
    is as the sentence wants it in no way, the prompt stays pending. *)
Lemma up_key_keeps_confirmation_pending :
  after ["down"; "enter"; "d"] agedWorld
    = Some (pendingDeleteModel, agedWorld) /\
  confirmingDelete pendingDeleteModel || confirmingClear pendingDeleteModel
    = true /\
  "up" <> "y" /\
  Update jsonDecode plainRender (KeyMsg "up") pendingDeleteModel agedWorld
    = Some (pendingDeleteModel, CmdNil, agedWorld) /\
  ~ cancelsOnKey jsonDecode plainRender pendingDeleteModel agedWorld "up".
Proof.
  split; [exact pendingDeleteModel_run |].
  split; [reflexivity |].
  split; [discriminate |].
  split; [reflexivity |].
  intros [m' [c [H [Hd _]]]].
  change (Some (pendingDeleteModel, CmdNil, agedWorld) = Some (m', c, agedWorld))
    in H.
  injection H as <- <-. discriminate Hd.
Qed.

Lemma other_key_while_confirming_witness :
  (confirmingDelete pendingDeleteModel || confirmingClear pendingDeleteModel
     = true) /\
  "x" <> "y" /\
  exists m' c,
    Update jsonDecode plainRender (KeyMsg "x") pendingDeleteModel agedWorld
      = Some (m', c, agedWorld) /\
    sameButPrompt pendingDeleteModel m' /\
    (In "x" guardedKeys ->
       m' = pendingDeleteModel /\ (c = Quit <-> In "x" ["q"; "ctrl+c"])) /\
    (~ In "x" guardedKeys ->
       m' = cancelled pendingDeleteModel /\ c = CmdNil /\
       confirmingDelete m' = false /\ confirmingClear m' = false /\
       message m' = "").
Proof.
  split; [reflexivity |].
  split; [discriminate |].
  apply (other_key_while_confirming jsonDecode plainRender
           pendingDeleteModel agedWorld "x");
    [reflexivity | discriminate].
Defined.

(** ** C4: [esc] *)

(** C4 (counterexample).  With the delete prompt pending on the log list,
    the screen is not Main, and [esc] does not return to Main: it leaves the
    log list on screen with the prompt cancelled. *)
Lemma esc_with_pending_delete_stays_on_log_list :
  after ["down"; "enter"; "d"] agedWorld
    = Some (pendingDeleteModel, agedWorld) /\
  mscreen pendingDeleteModel <> screenMain /\
  Update jsonDecode plainRender (KeyMsg "esc") pendingDeleteModel agedWorld
    = Some (logListModel, CmdNil, agedWorld) /\
  mscreen logListModel = screenLogs /\
  ~ escResets jsonDecode plainRender pendingDeleteModel agedWorld.
Proof.
  split; [exact pendingDeleteModel_run |].
  split; [discriminate |].
  split; [reflexivity |].
  split; [reflexivity |].
  intros [m' [c [w' [H [Hs _]]]]].
  change (Some (logListModel, CmdNil, agedWorld) = Some (m', c, w')) in H.
  injection H as <- <- <-. discriminate Hs.
Qed.

Lemma esc_resets_or_cancels_witness :
  mscreen secondFileModel <> screenMain /\
  exists m',
    Update jsonDecode plainRender (KeyMsg "esc") secondFileModel agedWorld
      = Some (m', CmdNil, agedWorld) /\
    mscreen m' = screenMain /\ cursor m' = 0.
Proof.
  split; [discriminate |].
  destruct (esc_resets_or_cancels jsonDecode plainRender
              secondFileModel agedWorld) as [m' [H [_ [_ [_ R]]]]];
    [discriminate |].
  exists m'. split; [exact H |].
  destruct R as [_ [_ [_ [_ [_ [_ [_ [R _]]]]]]]].
  destruct (R eq_refl) as [R1 [R2 _]]. split; assumption.
Defined.

(** ** C6 and C9: invariants of a run *)

Lemma retention_bounds_witness :
  reachable jsonDecode plainRender SupportedLanguages agedWorld
    settingsModel agedWorld /\
  Update jsonDecode plainRender (KeyMsg "+") settingsModel agedWorld
    = Some (set_message (set_retentionDays settingsModel 8)
              "Retention set to 8 days", CmdNil, agedWorld) /\
  1 <= retentionDays settingsModel <= 365 /\
  1 <= 8 <= 365.
Proof.
  assert (R : reachable jsonDecode plainRender SupportedLanguages agedWorld
                settingsModel agedWorld)
    by (apply (after_reachable _ _ _ _ settingsModel_run)).
  split; [exact R |].
  split; [reflexivity |].
  destruct (retention_bounds jsonDecode plainRender SupportedLanguages
              agedWorld settingsModel _ agedWorld agedWorld (KeyMsg "+")
              CmdNil R eq_refl) as [_ [B [B' _]]].
  split; [exact B | exact B'].
Defined.

Lemma confirmations_exclusive_witness :
  reachable jsonDecode plainRender SupportedLanguages agedWorld
    pendingDeleteModel agedWorld /\
  ~ (confirmingDelete pendingDeleteModel = true /\
     confirmingClear pendingDeleteModel = true).
Proof.
  assert (R : reachable jsonDecode plainRender SupportedLanguages agedWorld
                pendingDeleteModel agedWorld)
    by (apply (after_reachable _ _ _ _ pendingDeleteModel_run)).
  split; [exact R |].
  exact (confirmations_exclusive jsonDecode plainRender SupportedLanguages
           agedWorld pendingDeleteModel agedWorld R).
Defined.

(** ** C7 and C8: the formatter on the sample lines *)

Lemma formatLogEntry_sample_witness :
  (forall st s, plainText s = true ->
     exists pre post, ansiRender st s = pre ++ s ++ post) /\
  jsonDecode sampleLine = Some sampleEntry /\
  mapGet sampleEntry "timestamp" = Some (JStr "2024-01-15T14:30:45Z") /\
  mapGet sampleEntry "level" = Some (JStr "INFO") /\
  mapGet sampleEntry "message" = Some (JStr "hi") /\
  mapGet sampleEntry "data" = Some (JObj [("x", JNum 1)]) /\
  containsInOrder ["Jan 15 14:30:45"; "[INFO]"; "hi"; "{x=1}"]
    (formatLogEntry ansiRender sampleEntry).
Proof.
  split; [exact ansiRender_wraps |].
  split; [exact sampleLine_decodes |].
  repeat (split; [reflexivity |]).
  apply (formatLogEntry_sample ansiRender sampleEntry ansiRender_wraps);
    reflexivity.
Defined.


(** ** C10: the header of the log view *)


(** ** C3: the list after a confirmed delete or clear *)

(** C3 (the code at the failing input).  No Go project in the working
    directory, the global project [shop] with one log file: select [shop]
    and delete its file with [d], [y].  The file is gone from the tree, the
    message reports the deletion, and the file list still holds the deleted
    path, while a new scan of the project finds nothing.  The bulk clear
    [c], [y] leaves the same stale list.  With a Go project detected
    ([shopWorld]) the list becomes that of the working directory (empty)
    although two files of [shop] remain. *)
Theorem delete_in_global_project_is_not_refreshed :
  (exists w,
     after ["down"; "down"; "enter"; "enter"; "d"; "y"] plainWorld
       = Some (staleModel, w) /\
     os_Stat (disk w) "/home/u/logdog/shop/logdog-2024-01-06.json" = None /\
     getLogFilesForProject (selectedProject staleModel) w = []) /\
  In "/home/u/logdog/shop/logdog-2024-01-06.json" (logFiles staleModel) /\
  (exists w,
     after ["down"; "down"; "enter"; "enter"; "c"; "y"] plainWorld
       = Some (staleClearedModel, w) /\
     os_Stat (disk w) "/home/u/logdog/shop/logdog-2024-01-06.json" = None /\
     getLogFilesForProject (selectedProject staleClearedModel) w = []) /\
  In "/home/u/logdog/shop/logdog-2024-01-06.json"
    (logFiles staleClearedModel) /\
  (exists w,
     after ["down"; "down"; "enter"; "enter"; "down"; "down"; "d"; "y"]
       shopWorld = Some (strandedModel, w) /\
     getLogFilesForProject (selectedProject strandedModel) w
       = ["/home/u/logdog/shop/logdog-2024-01-12.json";
          "/home/u/logdog/shop/logdog-2024-01-13.json"]) /\
  logFiles strandedModel = [].
Proof.
  split; [eexists; split; [vm_compute; reflexivity |];
          split; vm_compute; reflexivity |].
  split; [simpl; tauto |].
  split; [eexists; split; [vm_compute; reflexivity |];
          split; vm_compute; reflexivity |].
  split; [simpl; tauto |].
  split; [eexists; split; [vm_compute; reflexivity |];
          vm_compute; reflexivity |].
  reflexivity.
Qed.

(** * Further properties of the transition function *)

(** The case analysis of [Update] at one bound key: the handlers are
    unfolded, the conditionals split, and the equation of the outcome
    turned into the values of the new model, command and world. *)
Ltac step_cases H :=
  cbn in H;
  unfold handleEnter, handleViewLog, viewLogContent, handleDeleteLog,
    handleClearOldLogs, confirmDelete, confirmClearOldLogs,
    refreshLogFiles in H;
  break_hyp H; out_inv H;
  repeat match goal with
         | E : match _ with _ => _ end = (_, _) |- _ =>
             break_hyp E; injection E as <- <-
         end.

Section MoreProperties.

Variable json_Unmarshal : string -> option object.
Variable Render : Style -> string -> string.
(** ** What a transition leaves alone *)

Lemma Update_context (msg : Msg) (m m' : Model) (w w' : World) (c : Cmd) :
  Update json_Unmarshal Render msg m w = Some (m', c, w') ->
  projectPath m' = projectPath m /\ language m' = language m /\
  config m' = config m /\ globalProjects m' = globalProjects m.
Proof.
  intros H.
  destruct msg as [k|]; [| out_inv H; auto].
  destruct (in_dec string_dec k boundKeys) as [Hin | Hout].
  - unfold boundKeys in Hin; simpl in Hin.
    repeat (destruct Hin as [<- | Hin];
            [step_cases H; cbn; auto | ]); contradiction.
  - rewrite (Update_default json_Unmarshal Render k m w Hout) in H.
    break_hyp H; out_inv H; cbn; auto.
Qed.

(** X1.  The project context is fixed at start-up: along every run the
    project path is the working directory found then, the language the one
    detected then, the configuration the default one, and the list of global
    projects the one scanned then; no transition scans the global root
    again. *)
Theorem context_fixed_at_startup (langs : list Language) (w0 : World)
    (m : Model) (w : World) :
  reachable json_Unmarshal Render langs w0 m w ->
  projectPath m = wd w0 /\
  language m = DetectLanguage langs (wd w0) w0 /\
  config m = mkConfig "INFO" "logdog/logs" 30 "2006-01-02" /\
  globalProjects m = scanGlobalProjects w0.
Proof.
  induction 1 as [| m w t _ IH | m w msg m' c w' _ IH H].
  - cbn. auto.
  - exact IH.
  - destruct (Update_context msg m m' w w' c H) as [E1 [E2 [E3 E4]]].
    rewrite E1, E2, E3, E4. exact IH.
Qed.

(** X2.  The only transitions that touch the world are [y] with a
    confirmation pending and [enter] on the Install screen with a language
    detected.  A confirmed delete or clear changes nothing but the file
    tree: the clock, the home directory and the working directory stay. *)
Theorem world_changes_only_on_confirm_or_install (msg : Msg) (m m' : Model)
    (w w' : World) (c : Cmd) :
  Update json_Unmarshal Render msg m w = Some (m', c, w') ->
  w' = w \/
  (msg = KeyMsg "y" /\ confirmingDelete m || confirmingClear m = true /\
   exists f, w' = setFS w f) \/
  (msg = KeyMsg "enter" /\ mscreen m = screenInstall /\
   confirmingDelete m || confirmingClear m = false /\
   exists l, language m = Some l /\
             w' = snd (Install l (projectPath m) (config m) w)).
Proof.
  intros H.
  destruct msg as [k|]; [| out_inv H; auto].
  destruct (in_dec string_dec k boundKeys) as [Hin | Hout].
  - unfold boundKeys in Hin; simpl in Hin.
    repeat (destruct Hin as [<- | Hin];
            [step_cases H; bools;
             first
               [ solve [left; reflexivity]
               | solve [right; left; split; [reflexivity |];
                        split; [ repeat match goal with
                                        | E : ?b = _ |- context [?b] =>
                                            rewrite E
                                        end; reflexivity
                               | eexists; reflexivity ]]
               | solve [right; right; split; [reflexivity |];
                        split; [apply screen_eqb_eq; assumption |];
                        split; [ repeat match goal with
                                        | E : ?b = _ |- context [?b] =>
                                            rewrite E
                                        end; reflexivity |];
                        eexists; split; [first [eassumption | reflexivity] |];
                        match goal with
                        | E : Install _ _ _ _ = _ |- _ => rewrite E
                        end; reflexivity] ]
            | ]); contradiction.
  - rewrite (Update_default json_Unmarshal Render k m w Hout) in H.
    break_hyp H; out_inv H; left; reflexivity.
Qed.

(** X3.  The quit command comes from [q] or [ctrl+c], in any state, and
    from [enter] on the last row of the Main screen with no confirmation
    pending, and from nothing else; it never comes with a change of the
    model or of the world. *)
Theorem quit_characterised (msg : Msg) (m m' : Model) (w w' : World) :
  Update json_Unmarshal Render msg m w = Some (m', Quit, w') <->
  m' = m /\ w' = w /\
  (msg = KeyMsg "q" \/ msg = KeyMsg "ctrl+c" \/
   (msg = KeyMsg "enter" /\ mscreen m = screenMain /\ cursor m = 4 /\
    confirmingDelete m || confirmingClear m = false)).
Proof.
  split.
  - intros H.
    destruct msg as [k|]; [| unfold Update, ret in H; discriminate H].
    destruct (in_dec string_dec k boundKeys) as [Hin | Hout].
    + unfold boundKeys in Hin; simpl in Hin.
      repeat (destruct Hin as [<- | Hin];
              [ cbn in H;
                unfold handleEnter, handleViewLog, viewLogContent,
                  handleDeleteLog, handleClearOldLogs, confirmDelete,
                  confirmClearOldLogs, refreshLogFiles in H;
                break_hyp H; unfold ret in H; try discriminate H;
                injection H as <- <-; bools;
                (split; [reflexivity |]); (split; [reflexivity |]);
                first
                  [ solve [left; reflexivity]
                  | solve [right; left; reflexivity]
                  | solve [right; right; split; [reflexivity |];
                           split; [first [assumption | reflexivity] |];
                           split; [assumption |];
                           repeat match goal with
                                  | E : ?b = _ |- context [?b] => rewrite E
                                  end; reflexivity] ]
              | ]); contradiction.
    + rewrite (Update_default json_Unmarshal Render k m w Hout) in H.
      break_hyp H; unfold ret in H; discriminate H.
  - intros [-> [-> [-> | [-> | [-> [Hs [Hc Hn]]]]]]];
      [reflexivity | reflexivity |].
    apply orb_false_elim in Hn. destruct Hn as [Hd Hl].
    cbn. rewrite Hd, Hl, Hs. cbn. unfold handleEnter. rewrite Hs, Hc.
    reflexivity.
Qed.

(** X4.  The list of log files changes only through a successful install
    (to the listing of the working directory), through the selection of a
    global project (to the files of that project) and through a confirmed
    delete or clear with a language detected (to the listing of the working
    directory).  Moving between screens never lists again: the log list
    opened from the Main screen shows whatever list was loaded last. *)
Theorem logFiles_change_only_on (msg : Msg) (m m' : Model) (w w' : World)
    (c : Cmd) :
  Update json_Unmarshal Render msg m w = Some (m', c, w') ->
  logFiles m' = logFiles m \/
  (msg = KeyMsg "enter" /\ mscreen m = screenInstall /\
   exists l, language m = Some l /\
             Install l (projectPath m) (config m) w = (None, w') /\
             logFiles m' = GetLogPaths l (projectPath m) w') \/
  (msg = KeyMsg "enter" /\ mscreen m = screenGlobalProjects /\
   exists name, index (globalProjects m) (cursor m) = Some name /\
                selectedProject m' = name /\
                logFiles m' = getLogFilesForProject name w) \/
  (msg = KeyMsg "y" /\ confirmingDelete m || confirmingClear m = true /\
   exists l, language m = Some l /\
             logFiles m' = GetLogPaths l (projectPath m) w').
Proof.
  intros H.
  destruct msg as [k|]; [| out_inv H; auto].
  destruct (in_dec string_dec k boundKeys) as [Hin | Hout].
  - unfold boundKeys in Hin; simpl in Hin.
    repeat (destruct Hin as [<- | Hin];
            [step_cases H; bools;
             first
               [ solve [left; reflexivity]
               | solve [right; left; split; [reflexivity |];
                        split; [apply screen_eqb_eq; assumption |];
                        eexists; split; [first [eassumption | reflexivity] |];
                        split; [eassumption | reflexivity]]
               | solve [right; right; left; split; [reflexivity |];
                        split; [first [assumption | reflexivity] |];
                        eexists; split; [first [eassumption | reflexivity] |];
                        split; reflexivity]
               | solve [right; right; right; split; [reflexivity |];
                        split; [ repeat match goal with
                                        | E : ?b = _ |- context [?b] =>
                                            rewrite E
                                        end; reflexivity |];
                        eexists; split;
                        [first [eassumption | reflexivity] | reflexivity]] ]
            | ]); contradiction.
  - rewrite (Update_default json_Unmarshal Render k m w Hout) in H.
    break_hyp H; out_inv H; left; reflexivity.
Qed.

(** ** The cursor *)

Lemma confirmDelete_screen (m m' : Model) (w w' : World) (c : Cmd) :
  confirmDelete m w = Some (m', c, w') ->
  mscreen m' = mscreen m /\
  (language m = None -> logFiles m' = logFiles m).
Proof.
  intros H. unfold confirmDelete, refreshLogFiles in H.
  destruct (language m) eqn:El; cbn in H; rewrite ?El in H;
    break_hyp H; out_inv H; cbn;
    (split; [reflexivity | intros; first [discriminate | reflexivity]]).
Qed.

(** X5.  One step of the cursor invariant, and the one way it breaks.  From
    a state of a run whose cursor is within [0, maxCursor], every transition
    ends within [0, maxCursor] again, except a confirmed delete, with a
    language detected, whose refreshed list is empty while the cursor is
    above 0: then the cursor stays where it was. *)
Theorem cursor_bound_step (langs : list Language) (w0 : World)
    (msg : Msg) (m m' : Model) (w w' : World) (c : Cmd) :
  reachable json_Unmarshal Render langs w0 m w ->
  0 <= cursor m <= specMaxCursor m ->
  Update json_Unmarshal Render msg m w = Some (m', c, w') ->
  0 <= cursor m' <= specMaxCursor m' \/
  (msg = KeyMsg "y" /\ confirmingDelete m = true /\
   mscreen m' = screenLogs /\ language m <> None /\
   logFiles m' = [] /\ cursor m' = cursor m /\ 0 < cursor m).
Proof.
  intros R B H.
  pose proof (reachable_Inv json_Unmarshal Render langs w0 m w R) as I.
  destruct (Update_cursor_bound json_Unmarshal Render msg m m' w w' c I B H)
    as [B' | [-> Hd]]; [left; exact B' |].
  assert (Hs : mscreen m = screenLogs).
  { apply (inv_confirm_screen m I). unfold confirming. rewrite Hd.
    reflexivity. }
  cbn in H. rewrite Hd in H.
  destruct (confirmDelete_screen m m' w w' c H) as [Hs' Hn].
  destruct (confirmDelete_cursor_bound m m' w w' c Hs B H) as [Hne He].
  destruct (logFiles m') as [| f fs] eqn:El.
  - specialize (He eq_refl).
    destruct (Z.eq_dec (cursor m) 0) as [Hz | Hz].
    + left. unfold specMaxCursor. rewrite He, Hz, Hs', Hs, El. cbn. lia.
    + assert (Hlang : language m <> None).
      { intros X. specialize (Hn X).
        unfold specMaxCursor in B. rewrite Hs, <- Hn in B. cbn in B. lia. }
      right. rewrite Hs', Hs. repeat split; auto; lia.
  - left. apply Hne. discriminate.
Qed.

Lemma Update_off_log_list (msg : Msg) (m m' : Model) (w w' : World)
    (c : Cmd) :
  Inv m ->
  (mscreen m <> screenLogs -> 0 <= cursor m <= specMaxCursor m) ->
  Update json_Unmarshal Render msg m w = Some (m', c, w') ->
  mscreen m' <> screenLogs -> 0 <= cursor m' <= specMaxCursor m'.
Proof.
  intros I K H.
  destruct (screen_eqb (mscreen m) screenLogs) eqn:Es.
  - apply screen_eqb_eq in Es. clear K.
    destruct msg as [k|]; [| out_inv H; congruence].
    destruct (in_dec string_dec k boundKeys) as [Hin | Hout].
    + unfold boundKeys in Hin; simpl in Hin.
      repeat (destruct Hin as [<- | Hin];
              [ cbn in H; rewrite ?Es in H; step_cases H;
                unfold specMaxCursor; cbn; rewrite ?Es; cbn;
                intros X; first [congruence | lia]
              | ]); contradiction.
    + rewrite (Update_default json_Unmarshal Render k m w Hout) in H.
      break_hyp H; out_inv H; cbn; congruence.
  - assert (Hn : mscreen m <> screenLogs).
    { intros X. apply screen_eqb_eq in X. congruence. }
    intros _.
    destruct (Update_cursor_bound json_Unmarshal Render msg m m' w w' c I
                (K Hn) H) as [B' | [_ Hd]]; [exact B' |].
    elim Hn. apply (inv_confirm_screen m I). unfold confirming.
    rewrite Hd. reflexivity.
Qed.

(** X6.  Away from the log list the cursor invariant holds along every
    run: on the Main screen the cursor is within [0, 4], on the list of
    global projects within the list (0 when it is empty), and on the
    Install, LogView and Settings screens it is 0. *)
Theorem cursor_in_bounds_off_the_log_list (langs : list Language)
    (w0 : World) (m : Model) (w : World) :
  reachable json_Unmarshal Render langs w0 m w ->
  mscreen m <> screenLogs ->
  0 <= cursor m <= specMaxCursor m /\
  (mscreen m = screenInstall \/ mscreen m = screenLogView \/
   mscreen m = screenSettings -> cursor m = 0).
Proof.
  intros R.
  assert (K : mscreen m <> screenLogs -> 0 <= cursor m <= specMaxCursor m).
  { induction R as [| m w t R IH | m w msg m' c w' R IH H].
    - intros _. cbn. lia.
    - exact IH.
    - apply (Update_off_log_list msg m m' w w' c); try assumption.
      exact (reachable_Inv json_Unmarshal Render langs w0 m w R). }
  intros Hn. split; [exact (K Hn) |].
  intros Hs. specialize (K Hn). unfold specMaxCursor in K.
  destruct Hs as [Hs | [Hs | Hs]]; rewrite Hs in K; lia.
Qed.

(** X7.  When no language is detected at start-up the cursor invariant
    holds in every state of every run, the log list included. *)
Theorem cursor_in_bounds_without_language (langs : list Language)
    (w0 : World) (m : Model) (w : World) :
  DetectLanguage langs (wd w0) w0 = None ->
  reachable json_Unmarshal Render langs w0 m w ->
  0 <= cursor m <= specMaxCursor m.
Proof.
  intros Hd R.
  assert (K : language m = None /\ 0 <= cursor m <= specMaxCursor m).
  { induction R as [| m w t R IH | m w msg m' c w' R IH H].
    - split; [exact Hd | cbn; lia].
    - exact IH.
    - destruct IH as [Hl B].
      pose proof (reachable_Inv json_Unmarshal Render langs w0 m w R) as I.
      destruct (Update_context msg m m' w w' c H) as [_ [El _]].
      split; [congruence |].
      destruct (Update_cursor_bound json_Unmarshal Render msg m m' w w' c
                  I B H) as [B' | [-> Hcd]]; [exact B' |].
      assert (Hs : mscreen m = screenLogs).
      { apply (inv_confirm_screen m I). unfold confirming. rewrite Hcd.
        reflexivity. }
      cbn in H. rewrite Hcd in H.
      destruct (confirmDelete_screen m m' w w' c H) as [Hs' Hn].
      destruct (confirmDelete_cursor_bound m m' w w' c Hs B H) as [Hne He].
      destruct (logFiles m') as [| f fs] eqn:E.
      + specialize (He eq_refl). specialize (Hn Hl).
        unfold specMaxCursor in *. rewrite Hs in B. rewrite Hs', Hs, E.
        rewrite <- Hn in B. cbn in *. lia.
      + apply Hne. discriminate. }
  exact (proj2 K).
Qed.

(** ** Moving and adjusting *)

Lemma set_cursor_same (m : Model) : set_cursor m (cursor m) = m.
Proof. destruct m; reflexivity. Qed.

Lemma Update_down (m : Model) (w : World) :
  confirmingDelete m = false -> confirmingClear m = false ->
  Update json_Unmarshal Render (KeyMsg "down") m w =
  Some (set_message
          (set_cursor m (if cursor m <? getMaxCursor m then cursor m + 1
                         else cursor m)) "", CmdNil, w).
Proof.
  intros Hd Hc. cbn. rewrite Hd, Hc. cbn. unfold ret.
  destruct (cursor m <? getMaxCursor m); [reflexivity |].
  now rewrite set_cursor_same.
Qed.

Lemma Update_up (m : Model) (w : World) :
  confirmingDelete m = false -> confirmingClear m = false ->
  Update json_Unmarshal Render (KeyMsg "up") m w =
  Some (set_message
          (set_cursor m (if cursor m >? 0 then cursor m - 1 else cursor m))
          "", CmdNil, w).
Proof.
  intros Hd Hc. cbn. rewrite Hd, Hc. cbn. unfold ret.
  destruct (cursor m >? 0); [reflexivity |].
  now rewrite set_cursor_same.
Qed.

(** X8.  Moving clamps.  With no confirmation pending, [n] presses of
    [down] (at least one) move the cursor [n] rows down but not past
    [getMaxCursor], and leave it where it is when it is there or beyond;
    [n] presses of [up] move it [n] rows up but not above row 0.  Nothing
    else changes but the message, which is cleared, and nothing is read from
    or written to the world. *)
Theorem navigation_clamps (n : nat) (m : Model) (w : World) :
  confirmingDelete m = false -> confirmingClear m = false ->
  run json_Unmarshal Render (presses "down" (S n)) m w =
    Some (set_message
            (set_cursor m
               (Z.max (cursor m)
                  (Z.min (cursor m + Z.of_nat (S n)) (getMaxCursor m))))
            "", w) /\
  run json_Unmarshal Render (presses "up" (S n)) m w =
    Some (set_message
            (set_cursor m
               (Z.min (cursor m) (Z.max (cursor m - Z.of_nat (S n)) 0)))
            "", w).
Proof.
  intros Hd Hc. split.
  - revert m Hd Hc. induction n as [| n IH]; intros m Hd Hc.
    + cbn [presses repeat run]. rewrite (Update_down m w Hd Hc).
      do 4 f_equal.
      destruct (cursor m <? getMaxCursor m) eqn:E; bools; lia.
    + change (presses "down" (S (S n)))
        with (KeyMsg "down" :: presses "down" (S n)).
      cbn [run]. rewrite (Update_down m w Hd Hc). cbv beta iota.
      rewrite IH by (cbn; assumption).
      set (a := if cursor m <? getMaxCursor m then cursor m + 1
                else cursor m).
      change (getMaxCursor (set_message (set_cursor m a) ""))
        with (getMaxCursor m).
      change (cursor (set_message (set_cursor m a) "")) with a.
      match goal with
      | |- Some (set_message (set_cursor _ ?b) "", w) = _ =>
          change (Some (set_message (set_cursor m b) "", w)
                  = Some (set_message
                            (set_cursor m
                               (Z.max (cursor m)
                                  (Z.min (cursor m + Z.of_nat (S (S n)))
                                     (getMaxCursor m)))) "", w))
      end.
      do 4 f_equal. subst a.
      destruct (cursor m <? getMaxCursor m) eqn:E; bools; lia.
  - revert m Hd Hc. induction n as [| n IH]; intros m Hd Hc.
    + cbn [presses repeat run]. rewrite (Update_up m w Hd Hc).
      do 4 f_equal.
      destruct (cursor m >? 0) eqn:E; bools; lia.
    + change (presses "up" (S (S n)))
        with (KeyMsg "up" :: presses "up" (S n)).
      cbn [run]. rewrite (Update_up m w Hd Hc). cbv beta iota.
      rewrite IH by (cbn; assumption).
      set (a := if cursor m >? 0 then cursor m - 1 else cursor m).
      change (cursor (set_message (set_cursor m a) "")) with a.
      match goal with
      | |- Some (set_message (set_cursor _ ?b) "", w) = _ =>
          change (Some (set_message (set_cursor m b) "", w)
                  = Some (set_message
                            (set_cursor m
                               (Z.min (cursor m)
                                  (Z.max (cursor m - Z.of_nat (S (S n))) 0)))
                            "", w))
      end.
      do 4 f_equal. subst a.
      destruct (cursor m >? 0) eqn:E; bools; lia.
Qed.

Lemma Update_plus (m : Model) (w : World) :
  mscreen m = screenSettings ->
  confirmingDelete m = false -> confirmingClear m = false ->
  Update json_Unmarshal Render (KeyMsg "+") m w =
  Some (if retentionDays m <? 365
        then set_message (set_retentionDays m (retentionDays m + 1))
               ("Retention set to " ++ itoa (retentionDays m + 1) ++ " days")
        else m, CmdNil, w).
Proof.
  intros Hs Hd Hc. cbn. rewrite Hs, Hd, Hc. cbn. unfold ret.
  destruct (retentionDays m <? 365); reflexivity.
Qed.

Lemma Update_minus (m : Model) (w : World) :
  mscreen m = screenSettings ->
  confirmingDelete m = false -> confirmingClear m = false ->
  Update json_Unmarshal Render (KeyMsg "-") m w =
  Some (if retentionDays m >? 1
        then set_message (set_retentionDays m (retentionDays m - 1))
               ("Retention set to " ++ itoa (retentionDays m - 1) ++ " days")
        else m, CmdNil, w).
Proof.
  intros Hs Hd Hc. cbn. rewrite Hs, Hd, Hc. cbn. unfold ret.
  destruct (retentionDays m >? 1); reflexivity.
Qed.

(** X9.  Adjusting the retention clamps.  On the Settings screen, [n]
    presses of [+] (at least one) from a threshold below 365 set it to
    [n] more but at most 365 and report the value reached; [n] presses of
    [-] from a threshold above 1 set it to [n] less but at least 1.  At the
    limit a press changes nothing, not even the message. *)
Theorem retention_presses (n : nat) (m : Model) (w : World) :
  mscreen m = screenSettings ->
  confirmingDelete m = false -> confirmingClear m = false ->
  run json_Unmarshal Render (presses "+" (S n)) m w =
    Some (if retentionDays m <? 365
          then
            let r := Z.min (retentionDays m + Z.of_nat (S n)) 365 in
            set_message (set_retentionDays m r)
              ("Retention set to " ++ itoa r ++ " days")
          else m, w) /\
  run json_Unmarshal Render (presses "-" (S n)) m w =
    Some (if retentionDays m >? 1
          then
            let r := Z.max (retentionDays m - Z.of_nat (S n)) 1 in
            set_message (set_retentionDays m r)
              ("Retention set to " ++ itoa r ++ " days")
          else m, w).
Proof.
  intros Hs Hd Hc. split.
  - revert m Hs Hd Hc. induction n as [| n IH]; intros m Hs Hd Hc.
    + cbn [presses repeat run]. rewrite (Update_plus m w Hs Hd Hc).
      destruct (retentionDays m <? 365) eqn:E; [| reflexivity].
      bools. cbv zeta.
      replace (Z.min (retentionDays m + Z.of_nat 1) 365)
        with (retentionDays m + 1) by lia.
      reflexivity.
    + change (presses "+" (S (S n)))
        with (KeyMsg "+" :: presses "+" (S n)).
      cbn [run]. rewrite (Update_plus m w Hs Hd Hc).
      destruct (retentionDays m <? 365) eqn:E.
      * cbv beta iota. rewrite IH by (cbn; assumption).
        cbn [retentionDays set_message set_retentionDays]. bools. cbv zeta.
        destruct (retentionDays m + 1 <? 365) eqn:E1; bools.
        -- replace (Z.min (retentionDays m + 1 + Z.of_nat (S n)) 365)
             with (Z.min (retentionDays m + Z.of_nat (S (S n))) 365) by lia.
           reflexivity.
        -- replace (Z.min (retentionDays m + Z.of_nat (S (S n))) 365)
             with (retentionDays m + 1) by lia.
           reflexivity.
      * cbv beta iota. rewrite IH by assumption. rewrite E. reflexivity.
  - revert m Hs Hd Hc. induction n as [| n IH]; intros m Hs Hd Hc.
    + cbn [presses repeat run]. rewrite (Update_minus m w Hs Hd Hc).
      destruct (retentionDays m >? 1) eqn:E; [| reflexivity].
      bools. cbv zeta.
      replace (Z.max (retentionDays m - Z.of_nat 1) 1)
        with (retentionDays m - 1) by lia.
      reflexivity.
    + change (presses "-" (S (S n)))
        with (KeyMsg "-" :: presses "-" (S n)).
      cbn [run]. rewrite (Update_minus m w Hs Hd Hc).
      destruct (retentionDays m >? 1) eqn:E.
      * cbv beta iota. rewrite IH by (cbn; assumption).
        cbn [retentionDays set_message set_retentionDays]. bools. cbv zeta.
        destruct (retentionDays m - 1 >? 1) eqn:E1; bools.
        -- replace (Z.max (retentionDays m - 1 - Z.of_nat (S n)) 1)
             with (Z.max (retentionDays m - Z.of_nat (S (S n))) 1) by lia.
           reflexivity.
        -- replace (Z.max (retentionDays m - Z.of_nat (S (S n))) 1)
             with (retentionDays m - 1) by lia.
           reflexivity.
      * cbv beta iota. rewrite IH by assumption. rewrite E. reflexivity.
Qed.

(** ** Detection *)

(** X10.  [DetectLanguage] answers with the first language of the list, in
    list order, whose [Detect] accepts the project directory, and with no
    language exactly when none accepts it. *)
Theorem DetectLanguage_first_match (langs : list Language)
    (projectPath : string) (w : World) :
  (forall l,
     DetectLanguage langs projectPath w = Some l ->
     exists before rest,
       langs = (before ++ l :: rest)%list /\
       Detect l projectPath w = true /\
       forall x, In x before -> Detect x projectPath w = false) /\
  (DetectLanguage langs projectPath w = None <->
   forall x, In x langs -> Detect x projectPath w = false).
Proof.
  induction langs as [| a langs [IH1 IH2]].
  - split; [discriminate |].
    split; [intros _ x [] | reflexivity].
  - split.
    + intros l H. simpl in H.
      destruct (Detect a projectPath w) eqn:E.
      * injection H as <-. exists [], langs.
        split; [reflexivity |]. split; [exact E | intros x []].
      * destruct (IH1 l H) as [before [rest [-> [Hl Hb]]]].
        exists (a :: before), rest.
        split; [reflexivity |]. split; [exact Hl |].
        intros x [<- | Hx]; [exact E | exact (Hb x Hx)].
    + simpl. destruct (Detect a projectPath w) eqn:E.
      * split; [discriminate |].
        intros H. specialize (H a (or_introl eq_refl)). congruence.
      * rewrite IH2. split.
        -- intros H x [<- | Hx]; [exact E | exact (H x Hx)].
        -- intros H x Hx. apply H. right. exact Hx.
Qed.

(** ** Prompts and deletion *)

Lemma lookupPath_filter_neq (f : FS) (p q : string) :
  p <> q ->
  lookupPath (filter (fun e => negb (String.eqb (fst e) q)) f) p
  = lookupPath f p.
Proof.
  intros Hn. induction f as [| [k n] f IH]; [reflexivity |].
  simpl. destruct (String.eqb_spec k q) as [-> | Hk]; simpl.
  - rewrite IH. destruct (String.eqb_spec q p); [congruence | reflexivity].
  - rewrite IH. reflexivity.
Qed.

(** What [os.Remove] does to the tree: nothing when it fails, and when it
    succeeds the path is gone and every other path is as before. *)
Lemma os_Remove_spec (f f' : FS) (q : string) (e : option error) :
  os_Remove f q = (e, f') ->
  (e <> None -> f' = f) /\
  (e = None -> lookupPath f' q = None) /\
  (forall p, p <> q -> lookupPath f' p = lookupPath f p).
Proof.
  unfold os_Remove. intros H.
  break_hyp H; injection H as <- <-;
    (split; [intros X; first [reflexivity | congruence] |]);
    (split; [intros X; first [discriminate
                             | apply lookupPath_filter_other] |]);
    intros p Hp; first [reflexivity | apply lookupPath_filter_neq, Hp].
Qed.

Lemma setFS_disk (w : World) : setFS w (disk w) = w.
Proof. destruct w; reflexivity. Qed.

Lemma index_bounds {A : Type} (l : list A) (i : Z) (x : A) :
  index l i = Some x -> 0 <= i < len l.
Proof.
  unfold index. destruct (0 <=? i) eqn:E1; [| discriminate].
  destruct (i <? len l) eqn:E2; [| discriminate]. bools. lia.
Qed.

(** The delete prompt that [d] opens on the file under the cursor. *)
Lemma Update_d (m : Model) (w : World) (path : string) :
  mscreen m = screenLogs ->
  confirmingDelete m = false -> confirmingClear m = false ->
  index (logFiles m) (cursor m) = Some path ->
  Update json_Unmarshal Render (KeyMsg "d") m w =
  Some (set_deleteFileIndex
          (set_confirmingDelete
             (set_message m
                ("Delete " ++ filepath_Base path
                 ++ "? Press 'y' to confirm, any other key to cancel"))
             true)
          (cursor m), CmdNil, w).
Proof.
  intros Hs Hd Hc Hi. pose proof (index_bounds _ _ _ Hi) as Hb.
  cbn. rewrite Hs, Hd, Hc. cbn.
  replace (len (logFiles m) >? 0) with true
    by (symmetry; apply Z.gtb_lt; lia).
  cbn. unfold handleDeleteLog.
  replace (cursor m <? len (logFiles m)) with true
    by (symmetry; apply Z.ltb_lt; lia).
  rewrite Hi. reflexivity.
Qed.

(** The keys that cancel a pending confirmation. *)
Lemma Update_cancel (m : Model) (w : World) (k : string) :
  confirmingDelete m || confirmingClear m = true ->
  ~ In k guardedKeys -> k <> "y" ->
  Update json_Unmarshal Render (KeyMsg k) m w = Some (cancelled m, CmdNil, w).
Proof.
  intros Hp Hk Hy.
  destruct (in_dec string_dec k boundKeys) as [Hin | Hout].
  - assert (E : k = "esc").
    { unfold boundKeys in Hin. unfold guardedKeys in Hk.
      simpl in Hin, Hk. intuition congruence. }
    subst k. cbn. rewrite Hp. reflexivity.
  - rewrite (Update_default json_Unmarshal Render k m w Hout), Hp.
    reflexivity.
Qed.

(** X11.  A cancelled prompt costs nothing.  On the log list, [d] followed
    by [esc] or by any key without a case of its own leaves the model as it
    was, except that the message is empty and [deleteFileIndex] is the
    cursor; [c] followed by such a key, when some file is old enough for the
    prompt to open, leaves the model as it was except for the empty message.
    The world is not touched. *)
Theorem cancelled_prompt_restores (m : Model) (w : World) (path k : string) :
  mscreen m = screenLogs ->
  confirmingDelete m = false -> confirmingClear m = false ->
  index (logFiles m) (cursor m) = Some path ->
  ~ In k guardedKeys -> k <> "y" ->
  run json_Unmarshal Render [KeyMsg "d"; KeyMsg k] m w =
    Some (set_deleteFileIndex (set_message m "") (cursor m), w) /\
  (oldLogs m w <> [] ->
   run json_Unmarshal Render [KeyMsg "c"; KeyMsg k] m w =
     Some (set_message m "", w)).
Proof.
  intros Hs Hd Hc Hi Hk Hy.
  pose proof (index_bounds _ _ _ Hi) as Hb.
  split.
  - cbn [run]. rewrite (Update_d m w path Hs Hd Hc Hi). cbv beta iota.
    rewrite Update_cancel by (first [reflexivity | assumption]).
    destruct m; cbn in *; subst; reflexivity.
  - intros Ho.
    assert (E : Update json_Unmarshal Render (KeyMsg "c") m w =
                Some (set_confirmingClear
                        (set_message m
                           ("Clear " ++ itoa (len (oldLogs m w))
                            ++ " log files older than "
                            ++ itoa (retentionDays m)
                            ++ " days? Press 'y' to confirm, any other key to cancel"))
                        true, CmdNil, w)).
    { cbn. rewrite Hs, Hd, Hc. cbn.
      replace (len (logFiles m) >? 0) with true
        by (symmetry; apply Z.gtb_lt; lia).
      cbn. unfold handleClearOldLogs.
      destruct (len (oldLogs m w) =? 0) eqn:Z0; [| reflexivity].
      bools. apply len_zero_nil in Z0. contradiction. }
    cbn [run]. rewrite E. cbv beta iota.
    rewrite Update_cancel
      by (first [cbn; rewrite Hd; reflexivity | assumption]).
    destruct m; cbn in *; subst; reflexivity.
Qed.

(** X12.  [d] then [y] deletes the file under the cursor and no other.  On
    the log list with no confirmation pending, when [os.Remove] accepts the
    file under the cursor: after [d], [y] that path is gone from the tree,
    every other path is as before, the clock is untouched, the message
    reports the deleted file by its base name, no confirmation is pending,
    and the list is the listing of the working directory when a language
    was detected and the old list otherwise. *)
Theorem delete_removes_the_file_under_the_cursor (m : Model) (w : World)
    (path : string) (f : FS) :
  mscreen m = screenLogs ->
  confirmingDelete m = false -> confirmingClear m = false ->
  index (logFiles m) (cursor m) = Some path ->
  os_Remove (disk w) path = (None, f) ->
  exists m',
    run json_Unmarshal Render [KeyMsg "d"; KeyMsg "y"] m w
      = Some (m', setFS w f) /\
    lookupPath f path = None /\
    (forall p, p <> path -> lookupPath f p = lookupPath (disk w) p) /\
    message m' = "✅ Deleted " ++ filepath_Base path /\
    confirmingDelete m' = false /\ confirmingClear m' = false /\
    mscreen m' = screenLogs /\ deleteFileIndex m' = cursor m /\
    logFiles m' =
      match language m with
      | Some l => GetLogPaths l (projectPath m) (setFS w f)
      | None => logFiles m
      end.
Proof.
  intros Hs Hd Hc Hi Hr.
  pose proof (index_bounds _ _ _ Hi) as Hb.
  destruct (os_Remove_spec _ _ _ _ Hr) as [_ [G O]].
  cbn [run]. rewrite (Update_d m w path Hs Hd Hc Hi). cbv beta iota.
  cbn. unfold confirmDelete, refreshLogFiles. cbn.
  replace (cursor m <? len (logFiles m)) with true
    by (symmetry; apply Z.ltb_lt; lia).
  rewrite Hi, Hr.
  destruct (language m) eqn:El; cbn;
    match goal with
    | |- context [if ?b then _ else _] => destruct b
    end;
    (eexists; split; [reflexivity |]); cbn; rewrite ?El;
    repeat split; auto.
Qed.

(** X13.  A delete that fails changes nothing but the message.  When
    [os.Remove] refuses the file under the cursor (gone already, or not
    removable), [d] then [y] leaves the world and the list as they were, the
    cursor where it was and no confirmation pending, and the message carries
    the error. *)
Theorem failed_delete_changes_nothing (m : Model) (w : World)
    (path : string) (err : error) (f : FS) :
  mscreen m = screenLogs ->
  confirmingDelete m = false -> confirmingClear m = false ->
  index (logFiles m) (cursor m) = Some path ->
  os_Remove (disk w) path = (Some err, f) ->
  run json_Unmarshal Render [KeyMsg "d"; KeyMsg "y"] m w =
    Some (set_deleteFileIndex
            (set_message m ("❌ Failed to delete: " ++ err)) (cursor m), w).
Proof.
  intros Hs Hd Hc Hi Hr.
  pose proof (index_bounds _ _ _ Hi) as Hb.
  destruct (os_Remove_spec _ _ _ _ Hr) as [K _].
  rewrite (K ltac:(discriminate)) in Hr.
  cbn [run]. rewrite (Update_d m w path Hs Hd Hc Hi). cbv beta iota.
  cbn. unfold confirmDelete. cbn.
  replace (cursor m <? len (logFiles m)) with true
    by (symmetry; apply Z.ltb_lt; lia).
  rewrite Hi, Hr. cbn. rewrite setFS_disk.
  destruct m; cbn in *; subst; reflexivity.
Qed.

Lemma len_filter_le {A : Type} (p : A -> bool) (l : list A) :
  len (filter p l) <= len l.
Proof.
  unfold len. induction l as [| x l IH]; simpl; [lia |].
  destruct (p x); simpl; lia.
Qed.

Lemma Update_promptMatches (msg : Msg) (m m' : Model) (w w' : World)
    (c : Cmd) :
  Inv m -> promptMatches m ->
  Update json_Unmarshal Render msg m w = Some (m', c, w') ->
  promptMatches m'.
Proof.
  intros [_ _ _ Hx _] P H.
  destruct msg as [k|]; [| out_inv H; exact P].
  destruct (in_dec string_dec k boundKeys) as [Hin | Hout].
  - unfold boundKeys in Hin; simpl in Hin.
    repeat (destruct Hin as [<- | Hin];
            [ step_cases H; bools; try exact P;
              unfold promptMatches; cbn;
              (split; intros X);
              try discriminate X;
              try (rewrite X in *; cbn in *; congruence);
              try congruence
            | ]); try contradiction.
    + split; [reflexivity |].
      eexists. split; [eassumption | reflexivity].
    + exists (len (oldLogs m w)).
      split; [| reflexivity].
      pose proof (len_nonneg (oldLogs m w)).
      pose proof (len_filter_le
                    (isOld w (AddDate_days (now w) (- retentionDays m)))
                    (logFiles m)).
      unfold oldLogs in *. lia.
  - rewrite (Update_default json_Unmarshal Render k m w Hout) in H.
    break_hyp H; out_inv H; unfold promptMatches in *; cbn;
      (split; intros X; try discriminate X);
      bools; congruence.
Qed.

(** X14.  A pending prompt is about what [y] will act on.  Along every run,
    while a delete is pending the cursor is on [deleteFileIndex], that index
    is within the list, and the message is the prompt naming that very
    file; while a clear is pending the message is the clear prompt, for a
    positive number of files and the current retention. *)
Theorem pending_prompt_names_its_target (langs : list Language)
    (w0 : World) (m : Model) (w : World) :
  reachable json_Unmarshal Render langs w0 m w ->
  (confirmingDelete m = true ->
   cursor m = deleteFileIndex m /\
   exists path,
     index (logFiles m) (deleteFileIndex m) = Some path /\
     message m = "Delete " ++ filepath_Base path
                 ++ "? Press 'y' to confirm, any other key to cancel") /\
  (confirmingClear m = true ->
   exists n,
     0 < n <= len (logFiles m) /\
     message m = "Clear " ++ itoa n ++ " log files older than "
                 ++ itoa (retentionDays m)
                 ++ " days? Press 'y' to confirm, any other key to cancel").
Proof.
  intros R. change (promptMatches m).
  induction R as [| m w t R IH | m w msg m' c w' R IH H].
  - split; intros X; discriminate X.
  - exact IH.
  - apply (Update_promptMatches msg m m' w w' c); try assumption.
    exact (reachable_Inv json_Unmarshal Render langs w0 m w R).
Qed.


(** ** The bulk clear *)

(** [isOld] read on a file tree. *)
Lemma isOld_lookup (w : World) (f : FS) (cutoff : Z) (p : string) :
  isOld (setFS w f) cutoff p =
  match lookupPath f p with
  | Some n => ModTime (info n) <? cutoff
  | None => false
  end.
Proof.
  unfold isOld, os_Stat. cbn. destruct (lookupPath f p); reflexivity.
Qed.

Lemma clearStep_other (cutoff : Z) (f : FS) (d : Z) (errs : list string)
    (h p : string) :
  p <> h ->
  lookupPath (fst (fst (clearStep cutoff (f, d, errs) h))) p
  = lookupPath f p.
Proof.
  intros Hn. unfold clearStep.
  destruct (os_Stat f h) as [i |]; [| reflexivity].
  destruct (ModTime i <? cutoff); [| reflexivity].
  destruct (os_Remove f h) as [e f'] eqn:Er.
  destruct (os_Remove_spec _ _ _ _ Er) as [_ [_ O]].
  destruct e; cbn; apply O, Hn.
Qed.





Lemma clearFold_count (w : World) (cutoff : Z) (l : list string) :
  NoDup l ->
  forall (f : FS) (d : Z) (errs : list string),
    let r := fold_left (clearStep cutoff) l (f, d, errs) in
    snd (fst r) + len (snd r)
    = d + len errs + len (filter (isOld (setFS w f) cutoff) l) /\
    d <= snd (fst r).
Proof.
  induction 1 as [| h l Hh Hnd IH]; intros f d errs; cbn zeta.
  - cbn. lia.
  - cbn [fold_left filter].
    assert (S : exists f1 d1 e1,
               clearStep cutoff (f, d, errs) h = (f1, d1, e1) /\
               d1 + len e1
               = d + len errs
                 + (if isOld (setFS w f) cutoff h then 1 else 0) /\
               d <= d1 /\
               forall p, p <> h -> lookupPath f1 p = lookupPath f p).
    { pose proof (clearStep_other cutoff f d errs h) as O.
      unfold clearStep, isOld in *. cbn in *.
      destruct (os_Stat f h) as [i |].
      - destruct (ModTime i <? cutoff).
        + destruct (os_Remove f h) as [[e |] f'] eqn:Er; cbn in O;
            eexists; eexists; eexists;
            (split; [reflexivity |]);
            (split; [| split; [lia | exact O]]).
          * unfold len. rewrite length_app. simpl. lia.
          * lia.
        + eexists; eexists; eexists. split; [reflexivity |].
          split; [lia | split; [lia | exact O]].
      - eexists; eexists; eexists. split; [reflexivity |].
        split; [lia | split; [lia | exact O]]. }
    destruct S as [f1 [d1 [e1 [-> [Hc [Hle O]]]]]].
    specialize (IH f1 d1 e1). cbn zeta in IH. destruct IH as [IH1 IH2].
    assert (F : filter (isOld (setFS w f1) cutoff) l
                = filter (isOld (setFS w f) cutoff) l).
    { apply filter_ext_in. intros p Hp. rewrite !isOld_lookup.
      rewrite O; [reflexivity |]. intros ->. contradiction. }
    rewrite F in IH1. split; [| lia].
    rewrite IH1, Hc.
    destruct (isOld (setFS w f) cutoff h); unfold len; simpl; lia.
Qed.

Lemma Update_y_clear (m : Model) (w : World) :
  confirmingDelete m = false -> confirmingClear m = true ->
  Update json_Unmarshal Render (KeyMsg "y") m w = confirmClearOldLogs m w.
Proof. intros Hd Hc. cbn. rewrite Hd, Hc. reflexivity. Qed.

Lemma confirmClearOldLogs_outcome (m : Model) (w : World) :
  exists m',
    confirmClearOldLogs m w
      = Some (m', CmdNil, setFS w (fst (fst (clearOutcome m w)))) /\
    confirmingClear m' = false /\
    confirmingDelete m' = confirmingDelete m /\
    mscreen m' = mscreen m /\
    message m' =
      (if len (snd (clearOutcome m w)) >? 0
       then "✅ Deleted " ++ itoa (snd (fst (clearOutcome m w)))
            ++ " files. ❌ Errors: "
            ++ strings_Join (snd (clearOutcome m w)) "; "
       else "✅ Cleared " ++ itoa (snd (fst (clearOutcome m w)))
            ++ " old log files").
Proof.
  unfold confirmClearOldLogs, clearOutcome, refreshLogFiles.
  destruct (fold_left _ (logFiles m) _) as [[f d] errs]. cbn.
  destruct (language m); cbn;
    repeat match goal with
           | |- context [if ?b then _ else _] => destruct b
           end;
    eexists; (split; [reflexivity |]); cbn; auto.
Qed.



(** X17.  The bulk clear accounts for every old file.  When the list has no
    duplicates and [y] confirms a pending clear, the number of files deleted
    plus the number of errors collected is the number of files that are old
    at that moment, the number the prompt of [c] shows when the clock has
    not moved; the message reports the deleted count, with the errors when
    there are any, and no confirmation is left pending. *)
Theorem bulk_clear_accounts_for_every_old_file (m : Model) (w : World) :
  NoDup (logFiles m) ->
  confirmingDelete m = false -> confirmingClear m = true ->
  exists m' f deleted errors,
    clearOutcome m w = (f, deleted, errors) /\
    Update json_Unmarshal Render (KeyMsg "y") m w
      = Some (m', CmdNil, setFS w f) /\
    deleted + len errors = len (oldLogs m w) /\
    0 <= deleted /\
    confirmingDelete m' = false /\ confirmingClear m' = false /\
    message m' =
      (if len errors >? 0
       then "✅ Deleted " ++ itoa deleted ++ " files. ❌ Errors: "
            ++ strings_Join errors "; "
       else "✅ Cleared " ++ itoa deleted ++ " old log files").
Proof.
  intros Hnd Hd Hc.
  destruct (confirmClearOldLogs_outcome m w) as [m1 [E [F1 [F2 [_ Fm]]]]].
  pose proof (clearFold_count w (AddDate_days (now w) (- retentionDays m))
                (logFiles m) Hnd (disk w) 0 []) as K.
  cbn zeta in K. fold (clearOutcome m w) in K.
  rewrite setFS_disk in K. fold (oldLogs m w) in K.
  destruct (clearOutcome m w) as [[f d] errs] eqn:Eo.
  cbn in E, Fm, K.
  exists m1, f, d, errs.
  split; [reflexivity |].
  split; [rewrite (Update_y_clear m w Hd Hc); exact E |].
  rewrite ?len_nil in K.
  split; [lia |]. split; [lia |].
  split; [congruence |]. split; [exact F1 | exact Fm].
Qed.

(** ** Viewing and counting *)






(** X19.  A file that cannot be opened counts as empty and cannot be
    viewed.  Its entry count is 0, and pressing [v] on it stays on the log
    list, reports the error in the message and leaves the log content, the
    cursor and the world as they were. *)
Theorem unreadable_file (m : Model) (w : World) (path : string)
    (err : error) :
  mscreen m = screenLogs ->
  confirmingDelete m = false -> confirmingClear m = false ->
  index (logFiles m) (cursor m) = Some path ->
  os_Open (disk w) path = inl err ->
  getLogEntryCount w path = 0 /\
  Update json_Unmarshal Render (KeyMsg "v") m w =
    Some (set_message m ("❌ Error reading log: " ++ err), CmdNil, w).
Proof.
  intros Hs Hd Hc Hi Ho. pose proof (index_bounds _ _ _ Hi) as Hb.
  split; [unfold getLogEntryCount; rewrite Ho; reflexivity |].
  cbn. rewrite Hs, Hd, Hc. cbn.
  replace (len (logFiles m) >? 0) with true
    by (symmetry; apply Z.gtb_lt; lia).
  cbn. unfold handleViewLog.
  replace (cursor m <? len (logFiles m)) with true
    by (symmetry; apply Z.ltb_lt; lia).
  unfold viewLogContent. rewrite Hi, Ho. reflexivity.
Qed.

(** ** Global projects *)






(** ** Screens *)

(** X21.  A directory with no supported project.  When no language is
    detected at start-up, the Main screen says so, naming the working
    directory; [enter] on its first row opens the Install screen, which
    says that nothing can be installed; a second [enter] does not install
    and does not fail: it returns to the Main screen with a status message
    and leaves the world as it is. *)
Theorem no_project_detected (langs : list Language) (w : World) :
  DetectLanguage langs (wd w) w = None ->
  (exists pre post,
     renderMain Render (NewModel langs w)
     = pre ++ ("No supported project detected in " ++ wd w) ++ post) /\
  run json_Unmarshal Render [KeyMsg "enter"] (NewModel langs w) w
    = Some (set_screen (NewModel langs w) screenInstall, w) /\
  renderInstall (set_screen (NewModel langs w) screenInstall)
    = "No supported language detected. Press ESC to go back." /\
  run json_Unmarshal Render [KeyMsg "enter"; KeyMsg "enter"]
    (NewModel langs w) w
    = Some (set_message (NewModel langs w)
              "❌ No supported language detected", w).
Proof.
  intros Hd.
  split; [| split; [| split]].
  - unfold renderMain.
    replace (language (NewModel langs w)) with (@None Language)
      by (cbn; congruence).
    change (projectPath (NewModel langs w)) with (wd w).
    exists (Render (fgBold "99") "🐕 Logdog" ++ nl ++ nl).
    eexists. rewrite !append_assoc. reflexivity.
  - unfold NewModel. rewrite Hd. reflexivity.
  - unfold renderInstall, NewModel. rewrite Hd. reflexivity.
  - unfold NewModel. rewrite Hd. reflexivity.
Qed.

(** X23.  No transition panics along a run: in every reachable state
    [Update] returns a model for every message, the slice indices of the
    handlers being within range. *)
Theorem Update_never_panics (langs : list Language) (w0 : World)
    (m : Model) (w : World) (msg : Msg) :
  reachable json_Unmarshal Render langs w0 m w ->
  exists m' c w', Update json_Unmarshal Render msg m w = Some (m', c, w').
Proof.
  intros R.
  destruct (Update_total json_Unmarshal Render msg m w
              (reachable_Inv json_Unmarshal Render langs w0 m w R))
    as [[[m' c] w'] E].
  exists m', c, w'. exact E.
Qed.

(** X24.  Leaving is idempotent.  With no confirmation pending, [esc]
    leads to a state on which a second [esc] changes nothing; with a
    confirmation pending the first [esc] cancels it and the second one
    leaves for the Main screen. *)
Theorem esc_twice (m : Model) (w : World) :
  (confirmingDelete m || confirmingClear m = false ->
   run json_Unmarshal Render [KeyMsg "esc"; KeyMsg "esc"] m w
   = run json_Unmarshal Render [KeyMsg "esc"] m w) /\
  (confirmingDelete m || confirmingClear m = true ->
   exists m',
     run json_Unmarshal Render [KeyMsg "esc"; KeyMsg "esc"] m w
       = Some (m', w) /\
     mscreen m' = screenMain /\ cursor m' = 0 /\ message m' = "" /\
     logContent m' = "" /\ selectedProject m' = "" /\
     confirmingDelete m' = false /\ confirmingClear m' = false /\
     logFiles m' = logFiles m /\ retentionDays m' = retentionDays m).
Proof.
  split; intros H.
  - cbn. rewrite H. cbn. reflexivity.
  - cbn. rewrite H. cbn. eexists. split; [reflexivity |].
    cbn. repeat split.
Qed.

(** X25.  The list outlives the screen.  Leaving the log list with [esc]
    (no confirmation pending) and opening it again from the Main screen
    with [down], [enter] shows the list that was loaded before, unchanged
    and not listed again, with no project selected: after a visit to a
    global project the plain header "Log Files" stands above that project's
    files. *)
Theorem log_list_outlives_the_screen (m : Model) (w : World) :
  confirmingDelete m || confirmingClear m = false ->
  exists m',
    run json_Unmarshal Render [KeyMsg "esc"; KeyMsg "down"; KeyMsg "enter"]
      m w = Some (m', w) /\
    mscreen m' = screenLogs /\ cursor m' = 0 /\
    logFiles m' = logFiles m /\ selectedProject m' = "" /\
    (logFiles m <> [] ->
     exists rest,
       renderLogs Render m' w = Render (fgBold "99") "Log Files" ++ rest).
Proof.
  intros H.
  set (m1 := set_selectedProject
               (set_logContent
                  (set_confirmingClear
                     (set_confirmingDelete
                        (set_message (set_cursor (set_screen m screenMain) 0)
                           "") false) false) "") "").
  assert (E1 : Update json_Unmarshal Render (KeyMsg "esc") m w
               = Some (m1, CmdNil, w)).
  { cbn. rewrite H. reflexivity. }
  assert (E2 : Update json_Unmarshal Render (KeyMsg "down") m1 w
               = Some (set_message (set_cursor m1 1) "", CmdNil, w)).
  { rewrite Update_down by reflexivity. reflexivity. }
  assert (E3 : Update json_Unmarshal Render (KeyMsg "enter")
                 (set_message (set_cursor m1 1) "") w
               = Some (set_message
                         (set_cursor
                            (set_screen (set_message (set_cursor m1 1) "")
                               screenLogs) 0) "", CmdNil, w)).
  { reflexivity. }
  cbn [run]. rewrite E1. cbv beta iota. rewrite E2. cbv beta iota.
  rewrite E3. cbv beta iota.
  eexists. split; [reflexivity |].
  repeat (split; [reflexivity |]).
  intros Hne. unfold renderLogs.
  match goal with
  | |- context [len (logFiles ?x) =? 0] =>
      change (logFiles x) with (logFiles m);
      change (selectedProject x) with ""
  end.
  destruct (len (logFiles m) =? 0) eqn:E.
  - bools. apply len_zero_nil in E. contradiction.
  - eexists. reflexivity.
Qed.

(** ** Empty and missing things *)


(** X27.  A record without the known fields shows as an empty line.  When a
    decoded record has no string under [timestamp], [level] and [message]
    (the key missing, or its value of another type, or empty) and no
    non-empty object under [data], [formatLogEntry] returns the empty text,
    so that a line that decodes to such a record contributes a bare line
    break to the view, not its own text. *)
Theorem record_without_known_fields (entry : object) (text : string) :
  asString (mapGet entry "timestamp") = "" ->
  asString (mapGet entry "level") = "" ->
  asString (mapGet entry "message") = "" ->
  asObject (mapGet entry "data") = [] ->
  nonBlank text = true ->
  json_Unmarshal (strings_TrimSpace text) = Some entry ->
  formatLogEntry Render entry = "" /\
  formatLine json_Unmarshal Render text = nl.
Proof.
  intros Ht Hl Hm Hd Hn Hj.
  assert (E : formatLogEntry Render entry = "").
  { unfold formatLogEntry. rewrite Ht, Hl, Hm, Hd. reflexivity. }
  split; [exact E |].
  unfold formatLine. unfold nonBlank in Hn. apply negb_true_iff in Hn.
  rewrite Hn, Hj, E. reflexivity.
Qed.

(** X28.  Nothing to act on.  On the log list with no file, [v], [d] and
    [c] leave the state exactly as it is, message included; on the list of
    global projects, [enter] with the cursor past the list (as on an empty
    list) does the same. *)
Theorem empty_lists_ignore_actions (m : Model) (w : World) :
  (mscreen m = screenLogs -> logFiles m = [] ->
   Update json_Unmarshal Render (KeyMsg "v") m w = Some (m, CmdNil, w) /\
   Update json_Unmarshal Render (KeyMsg "d") m w = Some (m, CmdNil, w) /\
   Update json_Unmarshal Render (KeyMsg "c") m w = Some (m, CmdNil, w)) /\
  (mscreen m = screenGlobalProjects ->
   confirmingDelete m || confirmingClear m = false ->
   len (globalProjects m) <= cursor m ->
   Update json_Unmarshal Render (KeyMsg "enter") m w = Some (m, CmdNil, w)).
Proof.
  split.
  - intros Hs Hl. cbn. rewrite Hs, Hl. cbn. auto.
  - intros Hs Hc Hb. apply orb_false_elim in Hc. destruct Hc as [Hd Hc].
    cbn. rewrite Hs, Hd, Hc. cbn. unfold handleEnter. rewrite Hs.
    replace (cursor m <? len (globalProjects m)) with false
      by (symmetry; apply Z.ltb_ge; exact Hb).
    reflexivity.
Qed.

End MoreProperties.

Section ViewProperties.

Variable json_Unmarshal : string -> option object.
Variable Render : Style -> string -> string.
Variable RenderPadded : string -> string.

(** X22.  Rendering never panics along a run: in every reachable state
    [View] returns a text, whatever the screen.  (The only slice index of
    the views, in the header of the log view, is guarded from above and
    [deleteFileIndex] is never negative.) *)
Theorem View_total (langs : list Language) (w0 : World) (m : Model)
    (w : World) :
  reachable json_Unmarshal Render langs w0 m w ->
  exists text, View Render RenderPadded m w = Some text.
Proof.
  intros R.
  pose proof (inv_deleteFileIndex m
                (reachable_Inv json_Unmarshal Render langs w0 m w R)) as Hd.
  unfold View. destruct (mscreen m); try (eexists; reflexivity).
  unfold renderLogView, logViewFilename.
  destruct (deleteFileIndex m <? len (logFiles m)) eqn:E.
  - bools.
    destruct (index_some (logFiles m) (deleteFileIndex m)) as [x ->];
      [lia |].
    eexists. reflexivity.
  - eexists. reflexivity.
Qed.

End ViewProperties.

(** * The further properties at concrete inputs *)

Lemma pendingClearModel_run :
  after ["down"; "enter"; "c"] agedWorld
  = Some (pendingClearModel, agedWorld).
Proof. vm_compute. reflexivity. Qed.

Lemma globalListModel_run :
  after ["down"; "down"; "enter"; "enter"] plainWorld
  = Some (globalListModel, plainWorld).
Proof. vm_compute. reflexivity. Qed.

Lemma staleModel_run :
  after ["down"; "down"; "enter"; "enter"; "d"; "y"] plainWorld
  = Some (staleModel, goneWorld).
Proof. vm_compute. reflexivity. Qed.

Lemma agedLogs_NoDup : NoDup agedLogs.
Proof.
  unfold agedLogs.
  repeat (constructor; [simpl; intuition discriminate |]). constructor.
Qed.

Lemma context_fixed_at_startup_witness :
  reachable jsonDecode plainRender SupportedLanguages agedWorld
    pendingDeleteModel agedWorld /\
  projectPath pendingDeleteModel = wd agedWorld /\
  language pendingDeleteModel
    = DetectLanguage SupportedLanguages (wd agedWorld) agedWorld /\
  config pendingDeleteModel = mkConfig "INFO" "logdog/logs" 30 "2006-01-02" /\
  globalProjects pendingDeleteModel = scanGlobalProjects agedWorld.
Proof.
  assert (R : reachable jsonDecode plainRender SupportedLanguages agedWorld
                pendingDeleteModel agedWorld)
    by (apply (after_reachable _ _ _ _ pendingDeleteModel_run)).
  split; [exact R |].
  exact (context_fixed_at_startup jsonDecode plainRender SupportedLanguages
           agedWorld pendingDeleteModel agedWorld R).
Defined.

Lemma world_changes_witness :
  exists m' w',
    Update jsonDecode plainRender (KeyMsg "y") pendingDeleteModel agedWorld
      = Some (m', CmdNil, w') /\
    (w' = agedWorld \/
     (KeyMsg "y" = KeyMsg "y" /\
      confirmingDelete pendingDeleteModel
      || confirmingClear pendingDeleteModel = true /\
      exists f, w' = setFS agedWorld f) \/
     (KeyMsg "y" = KeyMsg "enter" /\
      mscreen pendingDeleteModel = screenInstall /\
      confirmingDelete pendingDeleteModel
      || confirmingClear pendingDeleteModel = false /\
      exists l, language pendingDeleteModel = Some l /\
                w' = snd (Install l (projectPath pendingDeleteModel)
                            (config pendingDeleteModel) agedWorld))).
Proof.
  eexists. eexists. split; [reflexivity |].
  eapply (world_changes_only_on_confirm_or_install jsonDecode plainRender).
  reflexivity.
Defined.

Lemma logFiles_change_witness :
  Update jsonDecode plainRender (KeyMsg "enter") projectListModel plainWorld
    = Some (globalListModel, CmdNil, plainWorld) /\
  (logFiles globalListModel = logFiles projectListModel \/
   (KeyMsg "enter" = KeyMsg "enter" /\
    mscreen projectListModel = screenInstall /\
    exists l, language projectListModel = Some l /\
              Install l (projectPath projectListModel)
                (config projectListModel) plainWorld = (None, plainWorld) /\
              logFiles globalListModel
              = GetLogPaths l (projectPath projectListModel) plainWorld) \/
   (KeyMsg "enter" = KeyMsg "enter" /\
    mscreen projectListModel = screenGlobalProjects /\
    exists name,
      index (globalProjects projectListModel) (cursor projectListModel)
        = Some name /\
      selectedProject globalListModel = name /\
      logFiles globalListModel = getLogFilesForProject name plainWorld) \/
   (KeyMsg "enter" = KeyMsg "y" /\
    confirmingDelete projectListModel || confirmingClear projectListModel
      = true /\
    exists l, language projectListModel = Some l /\
              logFiles globalListModel
              = GetLogPaths l (projectPath projectListModel) plainWorld)).
Proof.
  split; [reflexivity |].
  exact (logFiles_change_only_on jsonDecode plainRender (KeyMsg "enter")
           projectListModel globalListModel plainWorld plainWorld CmdNil
           eq_refl).
Defined.

Lemma cursor_bound_step_witness :
  reachable jsonDecode plainRender SupportedLanguages agedWorld
    logListModel agedWorld /\
  0 <= cursor logListModel <= specMaxCursor logListModel /\
  Update jsonDecode plainRender (KeyMsg "down") logListModel agedWorld
    = Some (secondFileModel, CmdNil, agedWorld) /\
  0 <= cursor secondFileModel <= specMaxCursor secondFileModel.
Proof.
  assert (R : reachable jsonDecode plainRender SupportedLanguages agedWorld
                logListModel agedWorld)
    by (apply (after_reachable _ _ _ _ logListModel_run)).
  assert (B : 0 <= cursor logListModel <= specMaxCursor logListModel)
    by (cbn; lia).
  split; [exact R |]. split; [exact B |]. split; [reflexivity |].
  destruct (cursor_bound_step jsonDecode plainRender SupportedLanguages
              agedWorld (KeyMsg "down") logListModel secondFileModel
              agedWorld agedWorld CmdNil R B eq_refl)
    as [B' | [E _]]; [exact B' | discriminate E].
Defined.

Lemma cursor_off_the_log_list_witness :
  reachable jsonDecode plainRender SupportedLanguages agedWorld
    settingsModel agedWorld /\
  mscreen settingsModel <> screenLogs /\
  0 <= cursor settingsModel <= specMaxCursor settingsModel /\
  (mscreen settingsModel = screenInstall \/
   mscreen settingsModel = screenLogView \/
   mscreen settingsModel = screenSettings -> cursor settingsModel = 0).
Proof.
  assert (R : reachable jsonDecode plainRender SupportedLanguages agedWorld
                settingsModel agedWorld)
    by (apply (after_reachable _ _ _ _ settingsModel_run)).
  split; [exact R |]. split; [discriminate |].
  apply (cursor_in_bounds_off_the_log_list jsonDecode plainRender
           SupportedLanguages agedWorld settingsModel agedWorld R).
  discriminate.
Defined.

Lemma cursor_without_language_witness :
  DetectLanguage SupportedLanguages (wd plainWorld) plainWorld = None /\
  reachable jsonDecode plainRender SupportedLanguages plainWorld
    staleModel goneWorld /\
  0 <= cursor staleModel <= specMaxCursor staleModel.
Proof.
  assert (R : reachable jsonDecode plainRender SupportedLanguages plainWorld
                staleModel goneWorld)
    by (apply (after_reachable _ _ _ _ staleModel_run)).
  split; [reflexivity |]. split; [exact R |].
  exact (cursor_in_bounds_without_language jsonDecode plainRender
           SupportedLanguages plainWorld staleModel goneWorld eq_refl R).
Defined.

Lemma navigation_clamps_witness :
  confirmingDelete (NewModel SupportedLanguages agedWorld) = false /\
  confirmingClear (NewModel SupportedLanguages agedWorld) = false /\
  run jsonDecode plainRender (presses "down" 7)
    (NewModel SupportedLanguages agedWorld) agedWorld
    = Some (set_message
              (set_cursor (NewModel SupportedLanguages agedWorld) 4) "",
            agedWorld) /\
  run jsonDecode plainRender (presses "up" 2) secondFileModel agedWorld
    = Some (set_message (set_cursor secondFileModel 0) "", agedWorld).
Proof.
  split; [reflexivity |]. split; [reflexivity |].
  split.
  - exact (proj1 (navigation_clamps jsonDecode plainRender 6
                    (NewModel SupportedLanguages agedWorld) agedWorld
                    eq_refl eq_refl)).
  - exact (proj2 (navigation_clamps jsonDecode plainRender 1
                    secondFileModel agedWorld eq_refl eq_refl)).
Defined.

Lemma retention_presses_witness :
  mscreen settingsModel = screenSettings /\
  confirmingDelete settingsModel = false /\
  confirmingClear settingsModel = false /\
  run jsonDecode plainRender (presses "+" 400) settingsModel agedWorld
    = Some (set_message (set_retentionDays settingsModel 365)
              "Retention set to 365 days", agedWorld) /\
  run jsonDecode plainRender (presses "-" 3) settingsModel agedWorld
    = Some (set_message (set_retentionDays settingsModel 4)
              "Retention set to 4 days", agedWorld).
Proof.
  do 3 (split; [reflexivity |]).
  split.
  - exact (proj1 (retention_presses jsonDecode plainRender 399
                    settingsModel agedWorld eq_refl eq_refl eq_refl)).
  - exact (proj2 (retention_presses jsonDecode plainRender 2
                    settingsModel agedWorld eq_refl eq_refl eq_refl)).
Defined.

Lemma cancelled_prompt_witness :
  mscreen logListModel = screenLogs /\
  confirmingDelete logListModel = false /\
  confirmingClear logListModel = false /\
  index (logFiles logListModel) (cursor logListModel)
    = Some "/work/app/logdog/logs/logdog-2024-01-14.json" /\
  ~ In "x" guardedKeys /\ "x" <> "y" /\
  oldLogs logListModel agedWorld <> [] /\
  run jsonDecode plainRender [KeyMsg "d"; KeyMsg "x"] logListModel agedWorld
    = Some (set_deleteFileIndex (set_message logListModel "")
              (cursor logListModel), agedWorld) /\
  run jsonDecode plainRender [KeyMsg "c"; KeyMsg "x"] logListModel agedWorld
    = Some (set_message logListModel "", agedWorld).
Proof.
  assert (G : ~ In "x" guardedKeys)
    by (unfold guardedKeys; simpl; intuition discriminate).
  assert (Y : "x" <> "y") by discriminate.
  assert (O : oldLogs logListModel agedWorld <> [])
    by (vm_compute; discriminate).
  do 4 (split; [reflexivity |]).
  split; [exact G |]. split; [exact Y |]. split; [exact O |].
  destruct (cancelled_prompt_restores jsonDecode plainRender
              logListModel agedWorld
              "/work/app/logdog/logs/logdog-2024-01-14.json" "x"
              eq_refl eq_refl eq_refl eq_refl G Y) as [D C].
  split; [exact D | exact (C O)].
Defined.

Lemma delete_under_cursor_witness :
  mscreen secondFileModel = screenLogs /\
  confirmingDelete secondFileModel = false /\
  confirmingClear secondFileModel = false /\
  index (logFiles secondFileModel) (cursor secondFileModel)
    = Some "/work/app/logdog/logs/logdog-2024-01-05.json" /\
  os_Remove (disk agedWorld) "/work/app/logdog/logs/logdog-2024-01-05.json"
    = (None,
       filter
         (fun e =>
            negb (String.eqb (fst e)
                    "/work/app/logdog/logs/logdog-2024-01-05.json"))
         (disk agedWorld)) /\
  exists m' w',
    run jsonDecode plainRender [KeyMsg "d"; KeyMsg "y"] secondFileModel
      agedWorld = Some (m', w') /\
    os_Stat (disk w') "/work/app/logdog/logs/logdog-2024-01-05.json" = None /\
    message m' = "✅ Deleted logdog-2024-01-05.json" /\
    logFiles m'
    = ["/work/app/logdog/logs/logdog-2024-01-14.json";
       "/work/app/logdog/logs/logdog-2023-12-16.json"].
Proof.
  do 4 (split; [reflexivity |]). split; [reflexivity |].
  destruct (delete_removes_the_file_under_the_cursor jsonDecode plainRender
              secondFileModel agedWorld
              "/work/app/logdog/logs/logdog-2024-01-05.json" _
              eq_refl eq_refl eq_refl eq_refl eq_refl)
    as [m' [E [G [_ [Hm [_ [_ [_ [_ Hl]]]]]]]]].
  exists m'. eexists. split; [exact E |].
  split; [unfold os_Stat; cbn [disk setFS]; rewrite G; reflexivity |].
  split; [rewrite Hm; reflexivity |].
  rewrite Hl. vm_compute. reflexivity.
Defined.

Lemma failed_delete_witness :
  mscreen staleModel = screenLogs /\
  confirmingDelete staleModel = false /\
  confirmingClear staleModel = false /\
  index (logFiles staleModel) (cursor staleModel)
    = Some "/home/u/logdog/shop/logdog-2024-01-06.json" /\
  os_Remove (disk goneWorld) "/home/u/logdog/shop/logdog-2024-01-06.json"
    = (Some "remove /home/u/logdog/shop/logdog-2024-01-06.json: no such file or directory",
       disk goneWorld) /\
  run jsonDecode plainRender [KeyMsg "d"; KeyMsg "y"] staleModel goneWorld
    = Some (set_deleteFileIndex
              (set_message staleModel
                 ("❌ Failed to delete: "
                  ++ "remove /home/u/logdog/shop/logdog-2024-01-06.json: no such file or directory"))
              (cursor staleModel), goneWorld).
Proof.
  do 4 (split; [reflexivity |]). split; [reflexivity |].
  exact (failed_delete_changes_nothing jsonDecode plainRender
           staleModel goneWorld
           "/home/u/logdog/shop/logdog-2024-01-06.json" _ _
           eq_refl eq_refl eq_refl eq_refl eq_refl).
Defined.

Lemma pending_prompt_witness :
  reachable jsonDecode plainRender SupportedLanguages agedWorld
    pendingDeleteModel agedWorld /\
  confirmingDelete pendingDeleteModel = true /\
  cursor pendingDeleteModel = deleteFileIndex pendingDeleteModel /\
  exists path,
    index (logFiles pendingDeleteModel) (deleteFileIndex pendingDeleteModel)
      = Some path /\
    message pendingDeleteModel
    = "Delete " ++ filepath_Base path
      ++ "? Press 'y' to confirm, any other key to cancel".
Proof.
  assert (R : reachable jsonDecode plainRender SupportedLanguages agedWorld
                pendingDeleteModel agedWorld)
    by (apply (after_reachable _ _ _ _ pendingDeleteModel_run)).
  split; [exact R |]. split; [reflexivity |].
  exact (proj1 (pending_prompt_names_its_target jsonDecode plainRender
                  SupportedLanguages agedWorld pendingDeleteModel agedWorld
                  R) eq_refl).
Defined.



Lemma bulk_clear_accounts_witness :
  NoDup (logFiles pendingClearModel) /\
  confirmingDelete pendingClearModel = false /\
  confirmingClear pendingClearModel = true /\
  exists m' f deleted errors,
    clearOutcome pendingClearModel agedWorld = (f, deleted, errors) /\
    Update jsonDecode plainRender (KeyMsg "y") pendingClearModel agedWorld
      = Some (m', CmdNil, setFS agedWorld f) /\
    deleted + len errors = len (oldLogs pendingClearModel agedWorld) /\
    len (oldLogs pendingClearModel agedWorld) = 2.
Proof.
  split; [exact agedLogs_NoDup |].
  split; [reflexivity |]. split; [reflexivity |].
  destruct (bulk_clear_accounts_for_every_old_file jsonDecode plainRender
              pendingClearModel agedWorld agedLogs_NoDup eq_refl eq_refl)
    as [m' [f [d [errs [E1 [E2 [E3 _]]]]]]].
  exists m', f, d, errs.
  split; [exact E1 |]. split; [exact E2 |]. split; [exact E3 |].
  vm_compute. reflexivity.
Defined.


Lemma unreadable_file_witness :
  mscreen staleModel = screenLogs /\
  confirmingDelete staleModel = false /\
  confirmingClear staleModel = false /\
  index (logFiles staleModel) (cursor staleModel)
    = Some "/home/u/logdog/shop/logdog-2024-01-06.json" /\
  os_Open (disk goneWorld) "/home/u/logdog/shop/logdog-2024-01-06.json"
    = inl "open /home/u/logdog/shop/logdog-2024-01-06.json: no such file or directory" /\
  getLogEntryCount goneWorld "/home/u/logdog/shop/logdog-2024-01-06.json" = 0 /\
  Update jsonDecode plainRender (KeyMsg "v") staleModel goneWorld
    = Some (set_message staleModel
              ("❌ Error reading log: "
               ++ "open /home/u/logdog/shop/logdog-2024-01-06.json: no such file or directory"),
            CmdNil, goneWorld).
Proof.
  do 4 (split; [reflexivity |]). split; [reflexivity |].
  exact (unreadable_file jsonDecode plainRender staleModel goneWorld
           "/home/u/logdog/shop/logdog-2024-01-06.json" _
           eq_refl eq_refl eq_refl eq_refl eq_refl).
Defined.

Lemma no_project_detected_witness :
  DetectLanguage SupportedLanguages (wd plainWorld) plainWorld = None /\
  run jsonDecode plainRender [KeyMsg "enter"; KeyMsg "enter"]
    (NewModel SupportedLanguages plainWorld) plainWorld
    = Some (set_message (NewModel SupportedLanguages plainWorld)
              "❌ No supported language detected", plainWorld) /\
  exists pre post,
    renderMain plainRender (NewModel SupportedLanguages plainWorld)
    = pre ++ ("No supported project detected in " ++ wd plainWorld) ++ post.
Proof.
  split; [reflexivity |].
  destruct (no_project_detected jsonDecode plainRender SupportedLanguages
              plainWorld eq_refl) as [M [_ [_ E]]].
  split; [exact E | exact M].
Defined.

Lemma View_total_witness :
  reachable jsonDecode plainRender SupportedLanguages agedWorld
    pendingDeleteModel agedWorld /\
  exists text,
    View plainRender (fun s => s) pendingDeleteModel agedWorld = Some text.
Proof.
  assert (R : reachable jsonDecode plainRender SupportedLanguages agedWorld
                pendingDeleteModel agedWorld)
    by (apply (after_reachable _ _ _ _ pendingDeleteModel_run)).
  split; [exact R |].
  exact (View_total jsonDecode plainRender (fun s => s) SupportedLanguages
           agedWorld pendingDeleteModel agedWorld R).
Defined.

Lemma Update_never_panics_witness :
  reachable jsonDecode plainRender SupportedLanguages agedWorld
    pendingDeleteModel agedWorld /\
  exists m' c w',
    Update jsonDecode plainRender (KeyMsg "y") pendingDeleteModel agedWorld
    = Some (m', c, w').
Proof.
  assert (R : reachable jsonDecode plainRender SupportedLanguages agedWorld
                pendingDeleteModel agedWorld)
    by (apply (after_reachable _ _ _ _ pendingDeleteModel_run)).
  split; [exact R |].
  exact (Update_never_panics jsonDecode plainRender SupportedLanguages
           agedWorld pendingDeleteModel agedWorld (KeyMsg "y") R).
Defined.

Lemma log_list_outlives_witness :
  confirmingDelete globalListModel || confirmingClear globalListModel
    = false /\
  logFiles globalListModel <> [] /\
  exists m',
    run jsonDecode plainRender [KeyMsg "esc"; KeyMsg "down"; KeyMsg "enter"]
      globalListModel plainWorld = Some (m', plainWorld) /\
    mscreen m' = screenLogs /\
    logFiles m' = ["/home/u/logdog/shop/logdog-2024-01-06.json"] /\
    selectedProject m' = "" /\
    exists rest,
      renderLogs plainRender m' plainWorld = "Log Files" ++ rest.
Proof.
  assert (N : logFiles globalListModel <> []) by discriminate.
  split; [reflexivity |]. split; [exact N |].
  destruct (log_list_outlives_the_screen jsonDecode plainRender
              globalListModel plainWorld eq_refl)
    as [m' [E [Hs [_ [Hl [Hp Hr]]]]]].
  exists m'. split; [exact E |]. split; [exact Hs |].
  split; [exact Hl |]. split; [exact Hp |]. exact (Hr N).
Defined.

Lemma record_without_known_fields_witness :
  asString (mapGet [("user", JStr "amy")] "timestamp") = "" /\
  asString (mapGet [("user", JStr "amy")] "level") = "" /\
  asString (mapGet [("user", JStr "amy")] "message") = "" /\
  asObject (mapGet [("user", JStr "amy")] "data") = [] /\
  nonBlank otherLine = true /\
  jsonDecode (strings_TrimSpace otherLine) = Some [("user", JStr "amy")] /\
  formatLogEntry plainRender [("user", JStr "amy")] = "" /\
  formatLine jsonDecode plainRender otherLine = nl.
Proof.
  do 4 (split; [reflexivity |]).
  split; [reflexivity |]. split; [reflexivity |].
  exact (record_without_known_fields jsonDecode plainRender
           [("user", JStr "amy")] otherLine
           eq_refl eq_refl eq_refl eq_refl eq_refl eq_refl).
Defined.

Lemma empty_lists_witness :
  mscreen strandedModel = screenLogs /\
  logFiles strandedModel = [] /\
  Update jsonDecode plainRender (KeyMsg "d") strandedModel shopWorld
    = Some (strandedModel, CmdNil, shopWorld).
Proof.
  split; [reflexivity |]. split; [reflexivity |].
  exact (proj1 (proj2 (proj1 (empty_lists_ignore_actions jsonDecode
                                plainRender strandedModel shopWorld)
                         eq_refl eq_refl))).
Defined.

Lemma quit_characterised_witness :
  Update jsonDecode plainRender (KeyMsg "q") pendingDeleteModel agedWorld
    = Some (pendingDeleteModel, Quit, agedWorld) /\
  (KeyMsg "q" = KeyMsg "q" \/ KeyMsg "q" = KeyMsg "ctrl+c" \/
   (KeyMsg "q" = KeyMsg "enter" /\ mscreen pendingDeleteModel = screenMain /\
    cursor pendingDeleteModel = 4 /\
    confirmingDelete pendingDeleteModel
    || confirmingClear pendingDeleteModel = false)).
Proof.
  split; [reflexivity |].
  exact (proj2 (proj2 (proj1 (quit_characterised jsonDecode plainRender
                                (KeyMsg "q") pendingDeleteModel
                                pendingDeleteModel agedWorld agedWorld)
                         eq_refl))).
Defined.

Lemma DetectLanguage_first_match_witness :
  DetectLanguage SupportedLanguages (wd agedWorld) agedWorld
    = Some GoLanguage /\
  exists before rest,
    SupportedLanguages = (before ++ GoLanguage :: rest)%list /\
    Detect GoLanguage (wd agedWorld) agedWorld = true /\
    forall x, In x before -> Detect x (wd agedWorld) agedWorld = false.
Proof.
  split; [reflexivity |].
  exact (proj1 (DetectLanguage_first_match SupportedLanguages (wd agedWorld)
                  agedWorld) GoLanguage eq_refl).
Defined.



Lemma esc_twice_witness :
  confirmingDelete pendingDeleteModel || confirmingClear pendingDeleteModel
    = true /\
  exists m',
    run jsonDecode plainRender [KeyMsg "esc"; KeyMsg "esc"]
      pendingDeleteModel agedWorld = Some (m', agedWorld) /\
    mscreen m' = screenMain /\ cursor m' = 0.
Proof.
  split; [reflexivity |].
  destruct (proj2 (esc_twice jsonDecode plainRender pendingDeleteModel
                     agedWorld) eq_refl) as [m' [E [Hs [Hc _]]]].
  exists m'. split; [exact E |]. split; [exact Hs | exact Hc].
Defined.
